(** * focus-claude-code: a shallow embedding of the session bookkeeping scripts

  The development follows the Python sources of the focus plugin:
  - [recover_context.py]   block-wise reverse reader, transcript extractor,
                           decaying budget allocation;
  - [focus_core.py], [log_utils.py]  state files, fatal errors, messages;
  - [focus_hook.py]        failure classification, three-strike counter,
                           the pre-action branch of the hook;
  - [constraints.py]       the ordered constraint rules;
  - [checkpoint_session.py] pruning of the operation log.

  Python [int] is [Z], [bytes] is [list byte], [str] is [string] (characters
  are 8-bit code points), a [dict] keyed by strings is a [gmap string _].
  Library functions of Python ([json], [datetime], the UTF-8 decoder, the
  regular expression engine) are fields of the class [PyLib].  Effects are
  threaded through a state-and-exit monad over a [World] of files. *)

From Stdlib Require Import ZArith QArith List Ascii DecimalString Lia.
From Stdlib.Strings Require Import Byte.
From stdpp Require Import base option list gmap strings.

#[local] Open Scope Z_scope.

(* ===================================================================== *)
(** * Python strings *)
(* ===================================================================== *)

Module PyStr.

Definition LF : ascii := "010"%char.
Definition CR : ascii := "013"%char.
Definition TAB : ascii := "009"%char.

Definition nl : string := String LF "".

(** [len(s)] *)
Definition len (s : string) : Z := Z.of_nat (String.length s).

(** Truthiness of a [str]: [if s]. *)
Definition truthy (s : string) : bool :=
  match s with "" => false | _ => true end.

(** [s.rstrip('\r')]: every trailing carriage return goes. *)
Fixpoint rstrip_cr (s : string) : string :=
  match s with
  | "" => ""
  | String c s' =>
      match rstrip_cr s' with
      | "" => if Ascii.eqb c CR then "" else String c ""
      | t => String c t
      end
  end.

(** [str.isspace] on the code points below 256. *)
Definition is_space (c : ascii) : bool :=
  let n := Ascii.N_of_ascii c in
  ((9 <=? n) && (n <=? 13) || (28 <=? n) && (n <=? 32)
   || (n =? 133) || (n =? 160))%N.

Fixpoint lstrip (s : string) : string :=
  match s with
  | "" => ""
  | String c s' => if is_space c then lstrip s' else s
  end.

Fixpoint rstrip (s : string) : string :=
  match s with
  | "" => ""
  | String c s' =>
      match rstrip s' with
      | "" => if is_space c then "" else String c ""
      | t => String c t
      end
  end.

(** [s.strip()] *)
Definition strip (s : string) : string := rstrip (lstrip s).

(** [s.startswith(p)] *)
Definition startswith (s p : string) : bool := String.prefix p s.

(** [sub in s] *)
Fixpoint contains (sub s : string) : bool :=
  String.prefix sub s ||
  match s with
  | "" => false
  | String _ s' => contains sub s'
  end.

(** [s.replace(old, new)] for a non-empty [old]: leftmost non-overlapping
    occurrences; [skip] counts the characters of a match still to drop. *)
Fixpoint replace_go (old new : string) (skip : nat) (s : string) : string :=
  match s with
  | "" => ""
  | String c s' =>
      match skip with
      | S k => replace_go old new k s'
      | O =>
          if String.prefix old s
          then new +:+ replace_go old new (String.length old - 1) s'
          else String c (replace_go old new 0 s')
      end
  end.

(** With an empty [old] Python puts [new] before every character and at
    the end. *)
Fixpoint intersperse_all (new s : string) : string :=
  match s with
  | "" => new
  | String c s' => new +:+ String c (intersperse_all new s')
  end.

Definition replace (old new s : string) : string :=
  match old with
  | "" => intersperse_all new s
  | _ => replace_go old new 0 s
  end.

(** [sep.join(parts)] *)
Fixpoint join (sep : string) (parts : list string) : string :=
  match parts with
  | [] => ""
  | [p] => p
  | p :: rest => p +:+ sep +:+ join sep rest
  end.

(** [s[:n]] with Python's reading of a negative bound. *)
Definition slice_to (s : string) (n : Z) : string :=
  if 0 <=? n then String.substring 0 (Z.to_nat n) s
  else String.substring 0 (Z.to_nat (len s + n)) s.

(** [s[lo:hi]] for [0 <= lo]. *)
Definition slice (s : string) (lo hi : Z) : string :=
  String.substring (Z.to_nat lo) (Z.to_nat (hi - lo)) s.

Definition lower_char (c : ascii) : ascii :=
  let n := Ascii.N_of_ascii c in
  if ((65 <=? n) && (n <=? 90))%N then Ascii.ascii_of_N (n + 32) else c.

(** [s.lower()] on ASCII letters. *)
Fixpoint lower (s : string) : string :=
  match s with
  | "" => ""
  | String c s' => String (lower_char c) (lower s')
  end.

(** [s.count(c)] for a one-character [c]. *)
Fixpoint count_char (c : ascii) (s : string) : Z :=
  match s with
  | "" => 0
  | String d s' => (if Ascii.eqb c d then 1 else 0) + count_char c s'
  end.

(** [s.rfind(c)], [-1] when absent. *)
Fixpoint rfind_from (c : ascii) (i : Z) (s : string) : Z :=
  match s with
  | "" => -1
  | String d s' =>
      let r := rfind_from c (i + 1) s' in
      if 0 <=? r then r else if Ascii.eqb c d then i else -1
  end.
Definition rfind (c : ascii) (s : string) : Z := rfind_from c 0 s.

(** [s[n:]] for [0 <= n]. *)
Definition slice_from (s : string) (n : Z) : string :=
  String.substring (Z.to_nat n) (String.length s - Z.to_nat n) s.

(** [any(f(c) for c in s)] *)
Fixpoint any_char (f : ascii → bool) (s : string) : bool :=
  match s with
  | "" => false
  | String c s' => f c || any_char f s'
  end.

(** [s.split(c)] for a one-character separator. *)
Fixpoint split_char (c : ascii) (s : string) : list string :=
  match s with
  | "" => [""]
  | String d s' =>
      if Ascii.eqb c d then "" :: split_char c s'
      else match split_char c s' with
           | [] => [String d ""]
           | p :: ps => String d p :: ps
           end
  end.

Definition DQUOTE : string := String "034"%char "".
Definition BACKSLASH : string := String "092"%char "".

(** [s.find(sub)], [-1] when absent. *)
Fixpoint find_from (sub : string) (i : Z) (s : string) : Z :=
  if String.prefix sub s then i
  else match s with
       | "" => -1
       | String _ s' => find_from sub (i + 1) s'
       end.
Definition find (sub s : string) : Z := find_from sub 0 s.

(** [a or b] on strings that may be missing. *)
Definition or_else (a b : option string) : option string :=
  match a with
  | Some s => if truthy s then a else b
  | None => b
  end.

(** [x in xs] for a list (or set) of strings. *)
Definition mem (x : string) (xs : list string) : bool :=
  existsb (String.eqb x) xs.

End PyStr.

(* ===================================================================== *)
(** * Python bytes *)
(* ===================================================================== *)

Module PyBytes.

#[global] Instance byte_eq_dec : EqDecision byte := Byte.byte_eq_dec.

Definition is_nl (b : byte) : bool := Byte.eqb b x0a.

(** Truthiness of [bytes]: [if line]. *)
Definition truthy (bs : list byte) : bool :=
  match bs with [] => false | _ => true end.

(** [buffer.split(b'\n')]: one more piece than there are newlines. *)
Fixpoint split_nl (bs : list byte) : list (list byte) :=
  match bs with
  | [] => [[]]
  | b :: rest =>
      let pieces := split_nl rest in
      if is_nl b then [] :: pieces
      else (b :: hd [] pieces) :: tl pieces
  end.

(** [f.seek(pos); f.read(size)] on a file holding [f]; a negative [size]
    reads to the end of the file. *)
Definition seek_read (f : list byte) (pos size : Z) : list byte :=
  if size <? 0 then skipn (Z.to_nat pos) f
  else firstn (Z.to_nat size) (skipn (Z.to_nat pos) f).

End PyBytes.

(* ===================================================================== *)
(** * Data read and written by the scripts *)
(* ===================================================================== *)

Module Data.

(** One element of a message's [content] list, as the extractor reads it:
    a dict with its ['type'], ['text'] and ['name'] entries, or a value of
    another type. *)
Inductive content_item :=
| ItemDict (item_type item_text item_name : option string)
| ItemOther.

(** [message['content']]: a string, a list, or something else. *)
Inductive content_t :=
| ContentStr (s : string)
| ContentList (items : list content_item)
| ContentOther.

(** A parsed transcript line (a JSON object), with the entries the
    extractor looks at.  [line_content] is [None] when ['message'] or its
    ['content'] is missing. *)
Record transcript_line := mkLine {
  line_type : option string;
  line_timestamp : option string;
  line_content : option content_t
}.

(** The ['ids'] of an operation record. *)
Record op_ids := mkIds {
  session_id : option string;
  tool_use_id : option string;
  event : option string;
  ids_tool_name : option string
}.

(** A record of operations.jsonl. *)
Record operation := mkOp {
  op_ts : string;
  op_hook_type : string;
  ids : option op_ids
}.

(** An entry of failure_count.json. *)
Record strike_entry := mkStrike {
  count : Z;
  last_error : string
}.

(** A JSON state file seen through [json.load]. *)
Inductive json_file (A : Type) :=
| FileAbsent
| FileCorrupt (err : string)
| FileJson (v : A).
Arguments FileAbsent {A}.
Arguments FileCorrupt {A} err.
Arguments FileJson {A} v.

(** What a script prints: the three JSON shapes of the hook contract. *)
Inductive hook_output :=
| OutPermission (hook_event decision reason : string)
| OutDecisionBlock (reason : string)
| OutContext (hook_event context : string)
| OutText (text : string).

(** [tool_input] of a hook invocation, with the entries the scripts read. *)
Record tool_input := mkInput {
  in_file_path : option string;
  in_path : option string;
  in_command : option string;
  in_new_string : option string;
  in_content : option string
}.

(** [tool_response]: a dict with its ['error'] entry and its body
    (['content'] or ['result']), a bare string, or nothing. *)
Inductive tool_response :=
| RespNone
| RespDict (error : option string) (body : option string)
| RespStr (s : string).

End Data.
Export Data.

(* ===================================================================== *)
(** * The Python library and the module globals *)
(* ===================================================================== *)

(** Functions of the Python library that the scripts call. *)
Class PyLib := {
datetime : Type;
(** [datetime.fromisoformat], with the text of the exception on failure *)
fromisoformat : string → string + datetime;
(** [dt.strftime(fmt)] *)
strftime : datetime → string → string;
(** [bytes.decode('utf-8', errors='replace')] *)
utf8_decode : list byte → string;
(** [json.loads] on a transcript line; [None] for [JSONDecodeError] *)
json_loads : string → option transcript_line;
(** a state file: the generic [json.load] for [load_json_file] *)
json : Type;
empty_dict : json;
json_load : list byte → string + json;
(** [Logger._format_msg] followed by the UTF-8 encoder *)
format_msg : string → string → list byte;
(** the dated header of [Logger._overwrite] and the content, encoded *)
format_verbose : string → list byte;
(** [re.search(pattern, s)] and [re.match(pattern, s)], as booleans;
    the flag is [re.IGNORECASE] *)
re_search : string → bool → string → bool;
re_match : string → string → bool;
(** [re.sub(pattern, repl, s)] *)
re_sub : string → string → string → string
}.

(** [str(n)] and [int(x)] for a rational [x]. *)
Definition str_of_Z (n : Z) : string := NilZero.string_of_int (Z.to_int n).
Definition py_int (x : Q) : Z := Z.quot (Qnum x) (Zpos (Qden x)).

(** [os.path.join(a, b)] on POSIX paths. *)
Definition path_join (a b : string) : string :=
if PyStr.startswith b "/" then b
else if negb (PyStr.truthy a) then b
else if String.eqb (PyStr.slice_to (String.rev a) 1) "/" then a +:+ b
else a +:+ "/" +:+ b.

(** Module-level globals: the logger and the configuration values that
  [main] loads. *)
Class Globals := {
(** [Logger.level]: 0 ERROR, 1 INFO, 2 DEBUG *)
logger_level : Z;
logger_rotate_lines : Z;
logger_logs_dir : string;
(* recover_context.py *)
DEFAULT_CHAR_BUDGET : Z;
MAX_ENTRY_LENGTH : Z;
DECAY_FACTOR : Q;
MIN_SESSION_BUDGET : Z;
NOISE_PATTERNS : list string;
TOOLS_TO_FILTER : list string;
(* focus_hook.py *)
MAX_STRIKES : Z;
ERROR_PATTERNS : list string
}.

(* ===================================================================== *)
(** * The world and the monad of effects *)
(* ===================================================================== *)

Record World := mkWorld {
(** byte files by path: transcripts and the logs *)
files : gmap string (list byte);
(** failure_count.json *)
failure_count_file : json_file (gmap string strike_entry);
(** operations.jsonl: its lines, [None] for a line that is not JSON;
    [None] when the file does not exist *)
operations_file : option (list (option operation));
(** what has been printed *)
stdout : list hook_output;
(** [_pending_messages] and [_current_hook_event] of focus_core *)
pending_messages : list string;
current_hook_event : option string
}.

Definition set_files (fs : gmap string (list byte)) (w : World) : World :=
mkWorld fs (failure_count_file w) (operations_file w) (stdout w)
        (pending_messages w) (current_hook_event w).
Definition set_failure_count_file (f : json_file (gmap string strike_entry))
  (w : World) : World :=
mkWorld (files w) f (operations_file w) (stdout w)
        (pending_messages w) (current_hook_event w).
Definition set_operations_file (f : option (list (option operation)))
  (w : World) : World :=
mkWorld (files w) (failure_count_file w) f (stdout w)
        (pending_messages w) (current_hook_event w).
Definition set_stdout (o : list hook_output) (w : World) : World :=
mkWorld (files w) (failure_count_file w) (operations_file w) o
        (pending_messages w) (current_hook_event w).
Definition set_pending (p : list string) (e : option string) (w : World)
  : World :=
mkWorld (files w) (failure_count_file w) (operations_file w) (stdout w) p e.

(** A run returns a value, leaves through [sys.exit], or does not end. *)
Inductive outcome (A : Type) :=
| Returns (a : A) (w : World)
| Exits (code : Z) (w : World)
| Diverges.
Arguments Returns {A} a w.
Arguments Exits {A} code w.
Arguments Diverges {A}.

Definition IO (A : Type) : Type := World → outcome A.

Module IOMonad.

Definition ret {A} (a : A) : IO A := λ w, Returns a w.

Definition bind {A B} (m : IO A) (k : A → IO B) : IO B :=
  λ w, match m w with
       | Returns a w' => k a w'
       | Exits c w' => Exits c w'
       | Diverges => Diverges
       end.

Definition get : IO World := λ w, Returns w w.
Definition modify (f : World → World) : IO unit := λ w, Returns tt (f w).

(** [sys.exit(code)] *)
Definition sys_exit {A} (code : Z) : IO A := λ w, Exits code w.

(** [print(json.dumps(o))] *)
Definition print (o : hook_output) : IO unit :=
  modify (λ w, set_stdout (stdout w ++ [o]) w).

(** [try: body finally: cleanup], also when [body] leaves through
    [sys.exit]. *)
Definition finally {A} (body : IO A) (cleanup : IO unit) : IO A :=
  λ w, match body w with
       | Returns a w' =>
           match cleanup w' with
           | Returns _ w'' => Returns a w''
           | Exits c w'' => Exits c w''
           | Diverges => Diverges
           end
       | Exits c w' =>
           match cleanup w' with
           | Returns _ w'' => Exits c w''
           | Exits c' w'' => Exits c' w''
           | Diverges => Diverges
           end
       | Diverges => Diverges
       end.

(** [for x in xs: body x] *)
Fixpoint for_each {A} (xs : list A) (body : A → IO unit) : IO unit :=
  match xs with
  | [] => ret tt
  | x :: rest => bind (body x) (λ _, for_each rest body)
  end.

End IOMonad.
Import IOMonad.

#[global] Instance IO_ret : MRet IO := @ret.
#[global] Instance IO_bind : MBind IO := λ A B k m, bind m k.

(* ===================================================================== *)
(** * log_utils.py *)
(* ===================================================================== *)

Module LogUtils.
Section LogUtils.
Context `{PyLib} `{Globals}.

(** [_fatal_error(message)] *)
Definition _fatal_error {A} (message : string) : IO A :=
  print (OutDecisionBlock ("[FATAL] " +:+ message)) ;;
  sys_exit 2.

(** [Logger._atomic_write]: the temporary file and the rename succeed. *)
Definition _atomic_write (filepath : string) (content : list byte)
    : IO unit :=
  modify (λ w, set_files (<[filepath := content]> (files w)) w).

(** [Logger._append] *)
Definition _append (filepath : string) (content : list byte) : IO unit :=
  w ← get;
  let existing := default [] (files w !! filepath) in
  _atomic_write filepath (existing ++ content).

(** [f.readlines()] on the bytes of a log: pieces ending in a newline. *)
Fixpoint readlines (bs : list byte) : list (list byte) :=
  match bs with
  | [] => []
  | b :: rest =>
      if PyBytes.is_nl b then [b] :: readlines rest
      else match readlines rest with
           | [] => [[b]]
           | l :: ls => (b :: l) :: ls
           end
  end.

(** [lines[-n:]] *)
Definition last_n {A} (n : Z) (l : list A) : list A :=
  if 0 <? n then skipn (length l - Z.to_nat n) l
  else if n =? 0 then l
  else skipn (Z.to_nat (- n)) l.

(** [Logger._append_with_rotate] *)
Definition _append_with_rotate (filepath : string) (content : list byte)
    : IO unit :=
  w ← get;
  let lines := readlines (default [] (files w !! filepath)) ++ [content] in
  let lines :=
    if logger_rotate_lines <? Z.of_nat (length lines)
    then last_n logger_rotate_lines lines else lines in
  _atomic_write filepath (concat lines).

Definition logs_file (name : string) : string :=
  path_join logger_logs_dir name.

(** [logger.error(func_name, msg)]: always written. *)
Definition logger_error (func_name msg : string) : IO unit :=
  _append (logs_file "error.log") (format_msg func_name msg).

(** [logger.info(func_name, msg)] *)
Definition logger_info (func_name msg : string) : IO unit :=
  if logger_level <? 1 then ret tt
  else _append_with_rotate (logs_file "info.log") (format_msg func_name msg).

(** [logger.debug(func_name, msg)] *)
Definition logger_debug (func_name msg : string) : IO unit :=
  if logger_level <? 2 then ret tt
  else _append (logs_file "debug.log") (format_msg func_name msg).

(** [logger.verbose(filename, content)] *)
Definition logger_verbose (filename content : string) : IO unit :=
  if logger_level <? 2 then ret tt
  else _atomic_write
         (path_join (logs_file "verbose") (filename +:+ ".log"))
         (format_verbose content).

End LogUtils.
End LogUtils.
Import LogUtils.

(* ===================================================================== *)
(** * recover_context.py *)
(* ===================================================================== *)

Module RecoverContext.
Section RecoverContext.
Context `{PyLib} `{Globals}.

(** ** [reverse_readline] *)

(** What one [yield] hands out: [line.decode(...).rstrip('\r')]. *)
Definition decode_line (line : list byte) : string :=
  PyStr.rstrip_cr (utf8_decode line).

(** [for line in reversed(ls): if line: yield ...] *)
Definition yield_reversed (ls : list (list byte)) : list string :=
  map decode_line (List.filter PyBytes.truthy (rev ls)).

(** The [while remaining > 0] loop followed by the last [yield]; the
    result is the sequence of yielded lines, [None] when the loop does not
    end within [fuel] rounds. *)
Fixpoint reverse_readline_loop (fuel : nat) (f : list byte)
    (buf_size remaining : Z) (buffer : list byte) : option (list string) :=
  if 0 <? remaining then
    match fuel with
    | O => None
    | S fuel' =>
        let read_size := Z.min buf_size remaining in
        let remaining := remaining - read_size in
        let chunk := PyBytes.seek_read f remaining read_size in
        let buffer := chunk ++ buffer in
        let lines := PyBytes.split_nl buffer in
        let buffer := hd [] lines in
        rest ← reverse_readline_loop fuel' f buf_size remaining buffer;
        Some (yield_reversed (tl lines) ++ rest)
    end
  else Some (if PyBytes.truthy buffer then [decode_line buffer] else []).

Definition reverse_readline_fuel (fuel : nat) (f : list byte)
    (buf_size : Z) : option (list string) :=
  let file_size := Z.of_nat (length f) in
  if file_size =? 0 then Some []
  else reverse_readline_loop fuel f buf_size file_size [].

(** One round per byte is enough whenever a round reads something. *)
Definition reverse_readline (f : list byte) (buf_size : Z)
    : option (list string) :=
  reverse_readline_fuel (length f) f buf_size.

(** The reference reader of the specification: read all the lines, drop
    the empty ones, reverse. *)
Definition naive_reverse_lines (f : list byte) : list string :=
  rev (map decode_line (List.filter PyBytes.truthy (PyBytes.split_nl f))).

(** ** Timestamps *)

Definition parse_timestamp (ts_str : option string)
    : IO (option datetime) :=
  match ts_str with
  | None => mret None
  | Some s =>
      if negb (PyStr.truthy s) then mret None
      else match fromisoformat (PyStr.replace "Z" "+00:00" s) with
           | inr dt => mret (Some dt)
           | inl e => logger_error "parse_timestamp" e ;; mret None
           end
  end.

Definition format_time (dt : option datetime) : string :=
  match dt with
  | Some d => strftime d "[%H:%M]"
  | None => "[??:??]"
  end.

(** ** Noise *)

Definition NOISE_XML_TAGS : list string :=
  [ "<command-name>"; "</command-name>";
    "<command-message>"; "</command-message>";
    "<command-args>"; "</command-args>";
    "<local-command-stdout>"; "</local-command-stdout>";
    "<local-command-caveat>"; "</local-command-caveat>";
    "<system-reminder>"; "</system-reminder>";
    "<system>"; "</system>" ].

Definition _is_noise_content (text : string) : bool :=
  if negb (PyStr.truthy text) then true
  else
    let text := PyStr.strip text in
    if negb (PyStr.truthy text) then true
    else if PyStr.startswith text "<system" then true
    else if existsb (λ tag, PyStr.contains tag text) NOISE_XML_TAGS then true
    else if PyStr.startswith text "[Request interrupted by user" then true
    else false.

(** ** [extract_valuable_content] *)

Record entry := mkEntry {
  e_time : option datetime;
  e_type : string;
  e_content : string;
  formatted : string
}.

(** The text items of a user message that are not noise. *)
Definition user_texts (items : list content_item) : list string :=
  omap (λ item,
          match item with
          | ItemDict ty tx _ =>
              if decide (ty = Some "text") then
                let text := default "" tx in
                if PyStr.truthy text && negb (_is_noise_content text)
                then Some text else None
              else None
          | ItemOther => None
          end) items.

(** The names of the [tool_use] items of an assistant message. *)
Definition tool_names (items : list content_item) : list string :=
  omap (λ item,
          match item with
          | ItemDict ty _ nm =>
              if decide (ty = Some "tool_use") then Some (default "" nm)
              else None
          | ItemOther => None
          end) items.

(** The non-empty text items of an assistant message. *)
Definition assistant_texts (items : list content_item) : list string :=
  omap (λ item,
          match item with
          | ItemDict ty tx _ =>
              if decide (ty = Some "text") then
                let text := default "" tx in
                if PyStr.truthy text then Some text else None
              else None
          | ItemOther => None
          end) items.

(** [for noise in NOISE_PATTERNS: combined = combined.replace(noise, '').strip()] *)
Definition strip_noise (combined : string) : string :=
  fold_left (λ acc noise, PyStr.strip (PyStr.replace noise "" acc))
            NOISE_PATTERNS combined.

Definition extract_user (timestamp : option datetime)
    (content : option content_t) : option entry :=
  let content :=
    match content with
    | None => Some ""
    | Some (ContentStr s) => Some s
    | Some (ContentList items) =>
        match user_texts items with
        | [] => None
        | texts => Some (PyStr.join PyStr.nl texts)
        end
    | Some ContentOther => None
    end in
  match content with
  | None => None
  | Some content =>
      if negb (PyStr.truthy content) || _is_noise_content content then None
      else Some {| e_time := timestamp; e_type := "USER";
                   e_content := content;
                   formatted := format_time timestamp +:+ " USER: "
                                +:+ content |}
  end.

Definition extract_assistant (timestamp : option datetime)
    (content : option content_t) (truncate : bool) : option entry :=
  let items :=
    match content with
    | Some (ContentList items) => Some items
    | None => Some []
    | _ => None
    end in
  let filtered :=
    match TOOLS_TO_FILTER, items with
    | _ :: _, Some items =>
        let names := tool_names items in
        match names with
        | [] => false
        | _ => forallb (λ name, PyStr.mem name TOOLS_TO_FILTER) names
        end
    | _, _ => false
    end in
  if filtered then None
  else
    match assistant_texts (default [] items) with
    | [] => None
    | texts =>
        let combined := strip_noise (PyStr.join PyStr.nl texts) in
        if negb (PyStr.truthy combined) then None
        else
          let combined :=
            if truncate && (MAX_ENTRY_LENGTH <? PyStr.len combined)
            then PyStr.slice_to combined MAX_ENTRY_LENGTH +:+ "..."
            else combined in
          Some {| e_time := timestamp; e_type := "CLAUDE";
                  e_content := combined;
                  formatted := format_time timestamp +:+ " CLAUDE: "
                               +:+ combined |}
    end.

Definition extract_valuable_content (line : string) (truncate : bool)
    : IO (option entry) :=
  match json_loads line with
  | None => mret None
  | Some data =>
      let entry_type := line_type data in
      timestamp ← parse_timestamp (line_timestamp data);
      if decide (entry_type = Some "user") then
        mret (extract_user timestamp (line_content data))
      else if decide (entry_type = Some "assistant") then
        mret (extract_assistant timestamp (line_content data) truncate)
      else mret None
  end.

(** ** [filter_session_from_end] *)

(** The [for line in reverse_readline(...)] loop. *)
Fixpoint filter_loop (lines : list string) (truncate : bool)
    (entries : list entry) (remaining skipped : Z)
    : IO (list entry * Z * Z) :=
  match lines with
  | [] => mret (entries, remaining, skipped)
  | line :: rest =>
      entry ← extract_valuable_content line truncate;
      match entry with
      | Some e =>
          let entry_len := PyStr.len (formatted e) + 2 in
          if remaining <? entry_len then
            filter_loop rest truncate entries remaining (skipped + 1)
          else if remaining <=? 0 then
            mret (entries, remaining, skipped)
          else
            filter_loop rest truncate (entries ++ [e])
                        (remaining - entry_len) skipped
      | None => filter_loop rest truncate entries remaining skipped
      end
  end.

Definition session_header (entries : list entry) : string :=
  match hd_error entries ≫= e_time, last entries ≫= e_time with
  | Some first_time, Some last_time =>
      "=== SESSION RECOVERY (" +:+ strftime first_time "%Y-%m-%d %H:%M"
      +:+ " - " +:+ strftime last_time "%H:%M" +:+ ") ==="
  | _, _ => "=== SESSION RECOVERY ==="
  end.

Definition render (entries : list entry) : string :=
  PyStr.join PyStr.nl
    ([session_header entries; ""]
     ++ flat_map (λ e, [formatted e; ""]) entries).

Definition header_reserve : Z := 100.

(** [transcript_path] is [None] for a missing path; the file exists when
    the world has bytes under that path. *)
Definition filter_session_from_end (transcript_path : option string)
    (char_budget : Z) (truncate : bool) : IO (string * Z * Z) :=
  w ← get;
  match transcript_path ≫= (λ p, files w !! p) with
  | None => mret ("No transcript found.", 0, 0)
  | Some f =>
      match reverse_readline f 8192 with
      | None => λ _, Diverges
      | Some lines =>
          '(entries, remaining, skipped) ←
             filter_loop lines truncate [] (char_budget - header_reserve) 0;
          let entries := rev entries in
          match entries with
          | [] => mret ("No conversational content found in transcript.",
                        0, 0)
          | _ =>
              let used := char_budget - remaining in
              mret (render entries, used, skipped)
          end
      end
  end.

(** ** The extractor as the specification words it *)

(** The value [parse_timestamp] returns. *)
Definition timestamp_of (ts_str : option string) : option datetime :=
  match ts_str with
  | None => None
  | Some s =>
      if negb (PyStr.truthy s) then None
      else match fromisoformat (PyStr.replace "Z" "+00:00" s) with
           | inr dt => Some dt
           | inl _ => None
           end
  end.

(** The turn a line holds, if it holds one that survives the filters. *)
Definition entry_of (truncate : bool) (line : string) : option entry :=
  match json_loads line with
  | None => None
  | Some data =>
      let timestamp := timestamp_of (line_timestamp data) in
      if decide (line_type data = Some "user") then
        extract_user timestamp (line_content data)
      else if decide (line_type data = Some "assistant") then
        extract_assistant timestamp (line_content data) truncate
      else None
  end.

(** The turns of a transcript, newest first. *)
Definition turns_newest_first (f : list byte) (truncate : bool)
    : list entry :=
  omap (entry_of truncate) (naive_reverse_lines f).

(** What a retained turn costs. *)
Definition cost (e : entry) : Z := PyStr.len (formatted e) + 2.

Definition total_cost (es : list entry) : Z :=
  fold_right (λ e acc, cost e + acc) 0 es.

(** The walk from the newest turn to the oldest: a turn that fits in what
    remains of the budget is retained and paid for, one that does not is
    skipped and counted, and the walk goes on.  The result is the retained
    turns, newest first, and the number of skipped ones. *)
Fixpoint walk (turns : list entry) (remaining : Z) : list entry * Z :=
  match turns with
  | [] => ([], 0)
  | e :: older =>
      if cost e <=? remaining then
        let '(retained, skipped) := walk older (remaining - cost e) in
        (e :: retained, skipped)
      else
        let '(retained, skipped) := walk older remaining in
        (retained, skipped + 1)
  end.

(** ** The budget allocation of [dual_source_recovery] *)

Record session_result := mkResult {
  r_sid : string;
  r_content : string;
  r_used : Z;
  r_budget_limit : Z;
  r_skipped : Z;
  r_remaining_after : Z
}.

(** [budget_limit] of one session. *)
Definition budget_limit_of (remaining_budget : Z) : Z :=
  if remaining_budget <=? MIN_SESSION_BUDGET then remaining_budget
  else py_int (inject_Z remaining_budget * DECAY_FACTOR).

(** [for i, (sid, transcript) in enumerate(session_transcripts_reversed)] *)
Fixpoint allocation_loop (sessions : list (string * string))
    (remaining_budget : Z) (session_results : list session_result)
    : IO (list session_result) :=
  match sessions with
  | [] => mret session_results
  | (sid, transcript) :: rest =>
      if remaining_budget <=? 0 then mret session_results
      else
        let budget_limit := budget_limit_of remaining_budget in
        '(content, used, skipped) ←
           filter_session_from_end (Some transcript) budget_limit true;
        let remaining_budget := remaining_budget - used in
        allocation_loop rest remaining_budget
          (session_results
           ++ [mkResult sid content used budget_limit skipped
                        remaining_budget])
  end.

(** The [Budget:] line and the three [parts] of one displayed session. *)
Definition budget_line (r : session_result) : string :=
  "[Budget: " +:+ str_of_Z (r_used r) +:+ "/"
  +:+ str_of_Z (r_budget_limit r) +:+ " used, "
  +:+ str_of_Z (r_remaining_after r) +:+ "/"
  +:+ str_of_Z DEFAULT_CHAR_BUDGET +:+ " total remaining, "
  +:+ str_of_Z (r_skipped r) +:+ " skipped]".

Fixpoint display_loop (i total : Z) (results : list session_result)
    : IO (list string) :=
  match results with
  | [] => mret []
  | r :: rest =>
      logger_verbose ("dual_session_" +:+ str_of_Z (i + 1))
        (r_content r +:+ PyStr.nl +:+ PyStr.nl +:+ budget_line r) ;;
      parts ← display_loop (i + 1) total rest;
      mret (["--- Session " +:+ str_of_Z (i + 1) +:+ "/"
             +:+ str_of_Z total +:+ ": "
             +:+ PyStr.slice_to (r_sid r) 8 +:+ "... ---";
             r_content r; budget_line r; ""] ++ parts)
  end.

(** The session block of [dual_source_recovery], from the allocation of
    the budget to the displayed parts; [session_transcripts] is oldest
    first.  It returns the results in display order and the parts. *)
Definition dual_source_sessions
    (session_transcripts : list (string * string))
    (current_session_id : string)
    : IO (list session_result * list string) :=
  let total_budget := DEFAULT_CHAR_BUDGET in
  let session_transcripts_reversed := rev session_transcripts in
  session_transcripts_reversed ←
    (if PyStr.truthy current_session_id then
       logger_debug "skip_current_session"
         ("Skipped current session: "
          +:+ PyStr.slice_to current_session_id 8 +:+ "...") ;;
       mret (List.filter
               (λ st, negb (String.eqb (fst st) current_session_id))
               session_transcripts_reversed)
     else mret session_transcripts_reversed);
  session_results ←
    allocation_loop session_transcripts_reversed total_budget [];
  let session_results := rev session_results in
  parts ← display_loop 0 (Z.of_nat (length session_results))
            session_results;
  mret (session_results, parts).

End RecoverContext.
End RecoverContext.

(* ===================================================================== *)
(** * focus_core.py *)
(* ===================================================================== *)

Module FocusCore.
Section FocusCore.
Context `{PyLib} `{Globals}.

(** [load_json_file(filepath)] *)
Definition load_json_file (filepath : string) : IO json :=
  w ← get;
  match files w !! filepath with
  | None => mret empty_dict
  | Some bs =>
      match json_load bs with
      | inr v => mret v
      | inl e =>
          _fatal_error ("load_json_file failed: " +:+ filepath +:+ ": "
                        +:+ e)
      end
  end.

(** [event = hook_event or _current_hook_event or "PostToolUse"] *)
Definition resolve_event (hook_event : option string) (w : World)
    : string :=
  default "PostToolUse"
    (PyStr.or_else hook_event
       (PyStr.or_else (current_hook_event w) None)).

(** [output_error(message, hook_event, block, logger)] *)
Definition output_error (message : string) (hook_event : option string)
    (block : bool) : IO unit :=
  logger_error "output_error" message ;;
  w ← get;
  let event := resolve_event hook_event w in
  let output :=
    if String.eqb event "PreToolUse" then
      OutPermission event (if block then "deny" else "allow") message
    else if block then OutDecisionBlock message
    else OutContext event ("[ERROR] " +:+ message) in
  print output ;;
  modify (set_pending [] None).

(** [output_message(tag, message, hook_event, logger)] *)
Definition output_message (tag message hook_event : string) : IO unit :=
  logger_debug tag
    (PyStr.slice_to (PyStr.replace PyStr.nl " | " message) 200) ;;
  modify (λ w, set_pending (pending_messages w ++ [message])
                           (Some hook_event) w).

(** [flush_output(hook_event, as_json)] *)
Definition flush_output (hook_event : option string) (as_json : bool)
    : IO unit :=
  w ← get;
  match pending_messages w with
  | [] => mret tt
  | msgs =>
      let combined := PyStr.join PyStr.nl msgs in
      (if as_json then
         print (OutContext (resolve_event hook_event w) combined)
       else print (OutText combined)) ;;
      modify (set_pending [] None)
  end.

End FocusCore.
End FocusCore.

(* ===================================================================== *)
(** * focus_hook.py: the three-strike protocol *)
(* ===================================================================== *)

Module FocusHook.
Section Strikes.
Context `{PyLib} `{Globals}.

(** [load_failure_counts()] *)
Definition load_failure_counts : IO (gmap string strike_entry) :=
  w ← get;
  match failure_count_file w with
  | FileAbsent => mret ∅
  | FileJson v => mret v
  | FileCorrupt e => logger_error "load_failure_counts" e ;; mret ∅
  end.

(** [save_failure_counts(data)]: the atomic write succeeds. *)
Definition save_failure_counts (data : gmap string strike_entry)
    : IO unit :=
  modify (set_failure_count_file (FileJson data)).

(** [get_operation_key(tool_name, tool_input)]; [tool_input] is [None]
    when it is not a dict, [tool_name] is [None] for Python's [None]. *)
Definition get_operation_key (tool_name : option string)
    (tool_input : option tool_input) : string :=
  let file_path :=
    match tool_input with
    | Some ti =>
        PyStr.or_else (in_file_path ti)
          (PyStr.or_else (in_path ti)
             (Some (PyStr.slice_to (default "" (in_command ti)) 50)))
    | None => None
    end in
  default "None" tool_name +:+ ":"
  +:+ default "unknown" (PyStr.or_else file_path None).

(** [for pattern in ERROR_PATTERNS: if pattern in text] *)
Definition first_pattern (text : string) : option string :=
  List.find (λ pattern, PyStr.contains pattern text) ERROR_PATTERNS.

(** [detect_failure(tool_response)] *)
Definition detect_failure (tool_response : tool_response)
    : bool * option string :=
  match tool_response with
  | RespNone => (false, None)
  | RespDict error_field _ =>
      match error_field with
      | None => (false, None)
      | Some e =>
          if negb (PyStr.truthy e) then (false, None)
          else
            let error_str := PyStr.lower e in
            match first_pattern error_str with
            | Some _ => (true, Some (PyStr.slice_to error_str 120))
            | None => (false, None)
            end
      end
  | RespStr s =>
      if negb (PyStr.truthy s) then (false, None)
      else
        let response_str := PyStr.lower s in
        match first_pattern response_str with
        | Some pattern =>
            let idx := PyStr.find pattern response_str in
            (true, Some (PyStr.slice response_str (Z.max 0 (idx - 20))
                                     (idx + 100)))
        | None => (false, None)
        end
  end.

Definition strike_message_1 (op_key : string) : string :=
  PyStr.nl +:+ "[focus] [!] STRIKE 1/3: Operation failed" +:+ PyStr.nl
  +:+ op_key +:+ PyStr.nl
  +:+ "→ Diagnose & Fix the issue" +:+ PyStr.nl.

Definition strike_message_2 (op_key : string) : string :=
  PyStr.nl +:+ "[focus] [!!] STRIKE 2/3: Same operation failed again!"
  +:+ PyStr.nl +:+ op_key +:+ PyStr.nl
  +:+ "→ MUST use Alternative Approach (NEVER repeat same action)"
  +:+ PyStr.nl.

Definition strike_message_3 (op_key : string) : string :=
  PyStr.nl +:+ "[focus] [!!!] STRIKE 3/3: ESCALATE TO USER" +:+ PyStr.nl
  +:+ op_key +:+ PyStr.nl
  +:+ "→ Broader Rethink required" +:+ PyStr.nl
  +:+ "→ Ask user for guidance before proceeding" +:+ PyStr.nl
  +:+ "→ Record this issue in focus_context.md Issues table" +:+ PyStr.nl.

(** The warning chosen from the strike count. *)
Definition strike_message (op_key : string) (strike : Z) : option string :=
  if strike =? 1 then Some (strike_message_1 op_key)
  else if strike =? 2 then Some (strike_message_2 op_key)
  else if MAX_STRIKES <=? strike then Some (strike_message_3 op_key)
  else None.

(** [check_and_update_strikes(tool_name, tool_input, tool_response)] *)
Definition check_and_update_strikes (tool_name : option string)
    (tool_input : option tool_input) (tool_response : tool_response)
    : IO (option string) :=
  let '(is_failure, error_snippet) := detect_failure tool_response in
  let op_key := get_operation_key tool_name tool_input in
  counts ← load_failure_counts;
  if is_failure then
    let counts :=
      match counts !! op_key with
      | None => <[op_key := mkStrike 0 ""]> counts
      | Some _ => counts
      end in
    let old := default (mkStrike 0 "") (counts !! op_key) in
    let strike := count old + 1 in
    let counts :=
      <[op_key := mkStrike strike
                    (default "" (PyStr.or_else error_snippet None))]>
        counts in
    save_failure_counts counts ;;
    mret (strike_message op_key strike)
  else
    match counts !! op_key with
    | Some _ => save_failure_counts (delete op_key counts) ;; mret None
    | None => mret None
    end.

(** ** Sequences of post-action invocations *)

(** What one post-action invocation hands to the strike protocol. *)
Record post_event := mkEvent {
  ev_tool_name : option string;
  ev_tool_input : option tool_input;
  ev_tool_response : tool_response
}.

Definition event_key (ev : post_event) : string :=
  get_operation_key (ev_tool_name ev) (ev_tool_input ev).

Definition event_fails (ev : post_event) : bool :=
  fst (detect_failure (ev_tool_response ev)).

(** Successive invocations, each reading the state the one before left
    on disk; the result lists the message of each. *)
Fixpoint run_strikes (events : list post_event)
    : IO (list (option string)) :=
  match events with
  | [] => mret []
  | ev :: rest =>
      msg ← check_and_update_strikes (ev_tool_name ev) (ev_tool_input ev)
              (ev_tool_response ev);
      msgs ← run_strikes rest;
      mret (msg :: msgs)
  end.

(** The count kept on disk for a key. *)
Definition persisted_count (K : string) (w : World) : option Z :=
  match failure_count_file w with
  | FileJson v => count <$> v !! K
  | _ => None
  end.

(** ** The protocol as the specification words it *)

(** The ['error'] entry of a response. *)
Definition response_error (r : tool_response) : option string :=
  match r with
  | RespDict e _ => e
  | _ => None
  end.

(** A pattern of the configuration occurs in the lower-cased text. *)
Definition pattern_occurs (text : string) : Prop :=
  ∃ pattern, In pattern ERROR_PATTERNS
             ∧ PyStr.contains pattern (PyStr.lower text) = true.

(** The number of failures at the front of a list of outcomes. *)
Fixpoint leading_failures (outcomes : list bool) : Z :=
  match outcomes with
  | true :: rest => 1 + leading_failures rest
  | _ => 0
  end.

(** The length of the trailing run of consecutive failures of key [K]. *)
Definition trailing_run (K : string) (events : list post_event) : Z :=
  leading_failures
    (rev (map event_fails
            (List.filter (λ ev, String.eqb (event_key ev) K) events))).

(** The three tiers: diagnose, alternative approach, escalate. *)
Definition tier_message (K : string) (n : Z) : string :=
  if n =? 1 then strike_message_1 K
  else if n =? 2 then strike_message_2 K
  else strike_message_3 K.

End Strikes.
End FocusHook.

(* ===================================================================== *)
(** * checkpoint_session.py: pruning the operation log *)
(* ===================================================================== *)

Module Checkpoint.
Section Checkpoint.
Context `{PyLib} `{Globals}.

(** [load_operations(operations_file, logger)]: the lines that parse, in
    order; one error is logged for each line that does not. *)
Definition load_operations : IO (list operation) :=
  w ← get;
  match operations_file w with
  | None => mret []
  | Some lines =>
      for_each lines
        (λ line, match line with
                 | None =>
                     logger_error "load_operations.json_parse"
                       "JSONDecodeError"
                 | Some _ => mret tt
                 end) ;;
      mret (omap id lines)
  end.

(** [op.get('ids', {}).get('session_id')] *)
Definition op_session_id (op : operation) : option string :=
  ids op ≫= session_id.

(** [x not in processed_sids] for a value that may be [None]. *)
Definition not_in_sids (x : option string) (processed_sids : list string)
    : bool :=
  match x with
  | Some sid => negb (PyStr.mem sid processed_sids)
  | None => true
  end.

Record prune_counts := mkCounts {
  original : Z;
  removed : Z;
  remaining : Z
}.

(** How rewriting the file goes: it is written in full, [open] fails and
    nothing is touched, or a write fails after some records. *)
Inductive write_result :=
| WriteOk
| OpenFails (err : string)
| WriteFails (written : nat) (err : string).

(** [remove_processed_sessions(operations_file, processed_sids, dry_run)];
    [io] tells how the rewrite goes if it is attempted. *)
Definition remove_processed_sessions (processed_sids : list string)
    (dry_run : bool) (io : write_result) : IO prune_counts :=
  w ← get;
  match operations_file w with
  | None => mret (mkCounts 0 0 0)
  | Some _ =>
      operations ← load_operations;
      let original := Z.of_nat (length operations) in
      let remaining :=
        List.filter (λ op, not_in_sids (op_session_id op) processed_sids)
                    operations in
      let n_remaining := Z.of_nat (length remaining) in
      let removed := original - n_remaining in
      (if negb dry_run && (0 <? removed) then
         match io with
         | WriteOk =>
             modify (set_operations_file (Some (map Some remaining))) ;;
             logger_info "remove_processed_sessions"
               ("Removed " +:+ str_of_Z removed +:+ " records")
         | OpenFails e => logger_error "remove_processed_sessions" e
         | WriteFails k e =>
             modify (set_operations_file
                       (Some (map Some (firstn k remaining)))) ;;
             logger_error "remove_processed_sessions" e
         end
       else mret tt) ;;
      mret (mkCounts original removed n_remaining)
  end.

End Checkpoint.
End Checkpoint.

(* ===================================================================== *)
(** * constraints.py *)
(* ===================================================================== *)

Module Constraints.

(** One entry of the [rules] list of [no_hardcoded_path]. *)
Record path_rule := mkPathRule {
  pr_extensions : option (list string);
  pr_regex : option string;
  pr_message : option string;
  pr_action : option string
}.

(** The configuration dict of one rule, with the keys the checks read;
    a key that is absent is [None]. *)
Record rule_config := mkRule {
  enabled : option bool;
  action : option string;
  threshold : option Z;
  extensions : option (list string);
  exclude_files : option (list string);
  check_dirs : option bool;
  patterns : option (list string);
  check_dot_backslash : option bool;
  path_rules : option (list path_rule)
}.

(** [{}] *)
Definition empty_rule : rule_config :=
  mkRule None None None None None None None None None.

(** The [constraints] block of the configuration. *)
Record constraints_config := mkConstraints {
  constraints_enabled : option bool;
  rules : gmap string rule_config
}.

Section Constraints.
Context `{PyLib} `{Globals}.

(** [os.path.splitext(p)] on POSIX paths. *)
Definition splitext (p : string) : string * string :=
  let sepIndex := PyStr.rfind "/" p in
  let dotIndex := PyStr.rfind "." p in
  if (sepIndex <? dotIndex)
     && PyStr.any_char (λ c, negb (Ascii.eqb c "."))
          (PyStr.slice p (sepIndex + 1) dotIndex)
  then (PyStr.slice_to p dotIndex, PyStr.slice_from p dotIndex)
  else (p, "").

Definition check_line_limit (content : string) (config : rule_config)
    : bool * option string :=
  let threshold := default 100 (threshold config) in
  let line_count := PyStr.count_char PyStr.LF content + 1 in
  if threshold <? line_count then
    (false, Some ("Modification exceeds " +:+ str_of_Z threshold
                  +:+ " lines (actual: " +:+ str_of_Z line_count
                  +:+ "), consider splitting into smaller changes"))
  else (true, None).

Definition check_no_tabs (content file_path : string)
    (config : rule_config) : bool * option string :=
  let extensions :=
    default [".gd"; ".py"; ".cpp"; ".h"; ".hpp"; ".tscn"; ".tres"]
            (extensions config) in
  let ext := snd (splitext file_path) in
  if negb (PyStr.mem (PyStr.lower ext) extensions) then (true, None)
  else if PyStr.contains (String PyStr.TAB "") content then
    (false, Some "Tab characters detected, use spaces for indentation")
  else (true, None).

Definition check_no_backslash_path (command : string)
    (config : rule_config) : bool * option string :=
  if re_match "^\s*(sed|awk)\s" command then (true, None)
  else
    let cleaned := re_sub "\\\\" "" command in
    let cleaned :=
      re_sub ("\\[ntr" +:+ PyStr.DQUOTE +:+ "\'0]") "" cleaned in
    if PyStr.contains PyStr.BACKSLASH cleaned then
      (false, Some "Backslash path detected, use forward slash / instead")
    else (true, None).

Definition check_no_powershell (command : string) (config : rule_config)
    : bool * option string :=
  let ps_patterns :=
    default [ "\bGet-ChildItem\b"; "\bSelect-String\b"; "\bGet-Content\b";
              "\bSet-Location\b"; "\bNew-Item\b"; "\bRemove-Item\b";
              "\bWrite-Host\b"; "\bInvoke-WebRequest\b";
              "\bInvoke-Expression\b" ]
            (patterns config) in
  if existsb (λ pattern, re_search pattern true command) ps_patterns then
    (false, Some "PowerShell commands not allowed, use Git Bash instead")
  else if default true (check_dot_backslash config)
          && re_match "^\s*\.\\" command then
    (false, Some "PowerShell commands not allowed, use Git Bash instead")
  else (true, None).

Definition file_ops : list (string * string * string) :=
  [ ("^\s*cat\s+[^|<]", "Read", "cat");
    ("^\s*head\s", "Read", "head");
    ("^\s*tail\s", "Read", "tail");
    ("^\s*grep\s", "Grep", "grep");
    ("^\s*rg\s", "Grep", "rg");
    ("^\s*find\s+\S+\s+.*-name", "Glob", "find") ].

Definition check_no_bash_file_ops (command : string)
    (config : rule_config) : bool * option string :=
  if PyStr.contains "<<" command then (true, None)
  else
    match List.find (λ op, re_search (fst (fst op)) false command)
                    file_ops with
    | Some (_, tool, cmd) =>
        (false, Some ("Consider using " +:+ tool +:+ " tool instead of "
                      +:+ cmd +:+ " command"))
    | None => (true, None)
    end.

Definition check_no_hardcoded_path (content file_path : string)
    (config : rule_config) : bool * option string * option string :=
  let rules := default [] (path_rules config) in
  let ext_lower := PyStr.lower (snd (splitext file_path)) in
  match
    List.find
      (λ rule,
         PyStr.mem ext_lower (default [] (pr_extensions rule))
         && PyStr.truthy (default "" (pr_regex rule))
         && re_search (default "" (pr_regex rule)) false content)
      rules
  with
  | Some rule =>
      (false,
       Some (default "Hardcoded path detected" (pr_message rule)),
       Some (default "warn" (pr_action rule)))
  | None => (true, None, None)
  end.

Definition is_snake_case (name : string) : bool :=
  re_match "^[a-z][a-z0-9_]*$" name.

Definition is_all_uppercase (name : string) : bool :=
  re_match "^[A-Z][A-Z0-9_]*$" name.

Definition exclude_dirs : list string :=
  [".claude"; ".git"; ".godot"; "node_modules"; "__pycache__"].

Definition check_snake_case_naming (file_path : string)
    (config : rule_config) : bool * option string :=
  let extensions :=
    default [".gd"; ".tscn"; ".tres"; ".py"; ".cpp"; ".h"; ".hpp"]
            (extensions config) in
  let exclude_files :=
    default ["CLAUDE.md"; "README.md"; "CHANGELOG.md"; "LICENSE"]
            (exclude_files config) in
  let check_dirs := default true (check_dirs config) in
  let normalized_path := PyStr.replace PyStr.BACKSLASH "/" file_path in
  let parts := PyStr.split_char "/" normalized_path in
  let filename := default "" (last parts) in
  if PyStr.mem filename exclude_files || PyStr.startswith filename "."
  then (true, None)
  else
    let '(name, ext) := splitext filename in
    if negb (PyStr.mem (PyStr.lower ext) extensions) then (true, None)
    else if is_all_uppercase name then (true, None)
    else if negb (is_snake_case name) then
      (false, Some ("Filename '" +:+ filename
                    +:+ "' does not follow snake_case convention"))
    else if check_dirs then
      match
        List.find
          (λ part,
             negb (negb (PyStr.truthy part) || PyStr.mem part exclude_dirs
                   || PyStr.startswith part ".")
             && negb (is_all_uppercase part)
             && negb (is_snake_case part))
          (removelast parts)
      with
      | Some part =>
          (false, Some ("Directory name '" +:+ part
                        +:+ "' does not follow snake_case convention"))
      | None => (true, None)
      end
    else (true, None).

(** [rules.get(name, {})] and [rule_config.get("enabled", False)] *)
Definition rule_of (config : constraints_config) (name : string)
    : rule_config :=
  default empty_rule (rules config !! name).
Definition rule_enabled (rc : rule_config) : bool :=
  default false (enabled rc).

(** [if logger: logger.debug("constraints", f"{name} triggered: {message}")] *)
Definition log_triggered (name : string) (message : option string)
    : IO unit :=
  logger_debug "constraints"
    (name +:+ " triggered: " +:+ default "None" message).

Definition is_edit_write (tool_name : string) : bool :=
  String.eqb tool_name "Edit" || String.eqb tool_name "Write".

(** [check_constraints(tool_name, tool_input, config, logger)] *)
Definition check_constraints (tool_name : string) (ti : tool_input)
    (config : constraints_config)
    : IO (bool * option string * option string) :=
  if negb (default false (constraints_enabled config)) then
    mret (true, None, None)
  else
    let content :=
      if is_edit_write tool_name then
        default "" (PyStr.or_else (in_new_string ti)
                      (Some (default "" (in_content ti))))
      else "" in
    let file_path :=
      if is_edit_write tool_name then default "" (in_file_path ti)
      else "" in
    let command :=
      if String.eqb tool_name "Bash" then default "" (in_command ti)
      else "" in
    (* line_limit (Edit, Write) *)
    let rule_config := rule_of config "line_limit" in
    let '(passed, message) :=
      if rule_enabled rule_config && is_edit_write tool_name
         && PyStr.truthy content
      then check_line_limit content rule_config else (true, None) in
    if negb passed then
      log_triggered "line_limit" message ;;
      mret (false, message, Some (default "warn" (action rule_config)))
    else
    (* no_tabs (Edit, Write) *)
    let rule_config := rule_of config "no_tabs" in
    let '(passed, message) :=
      if rule_enabled rule_config && is_edit_write tool_name
         && PyStr.truthy content
      then check_no_tabs content file_path rule_config
      else (true, None) in
    if negb passed then
      log_triggered "no_tabs" message ;;
      mret (false, message, Some (default "block" (action rule_config)))
    else
    (* no_hardcoded_path (Edit, Write) *)
    let rule_config := rule_of config "no_hardcoded_path" in
    let '(passed, message, action_) :=
      if rule_enabled rule_config && is_edit_write tool_name
         && PyStr.truthy content
      then check_no_hardcoded_path content file_path rule_config
      else (true, None, None) in
    if negb passed then
      log_triggered "no_hardcoded_path" message ;;
      mret (false, message, action_)
    else
    (* snake_case_naming (Write only) *)
    let rule_config := rule_of config "snake_case_naming" in
    let '(passed, message) :=
      if rule_enabled rule_config && String.eqb tool_name "Write"
         && PyStr.truthy file_path
      then check_snake_case_naming file_path rule_config
      else (true, None) in
    if negb passed then
      log_triggered "snake_case_naming" message ;;
      mret (false, message, Some (default "block" (action rule_config)))
    else
    (* no_backslash_path (Bash) *)
    let rule_config := rule_of config "no_backslash_path" in
    let '(passed, message) :=
      if rule_enabled rule_config && String.eqb tool_name "Bash"
         && PyStr.truthy command
      then check_no_backslash_path command rule_config
      else (true, None) in
    if negb passed then
      log_triggered "no_backslash_path" message ;;
      mret (false, message, Some (default "warn" (action rule_config)))
    else
    (* no_powershell (Bash) *)
    let rule_config := rule_of config "no_powershell" in
    let '(passed, message) :=
      if rule_enabled rule_config && String.eqb tool_name "Bash"
         && PyStr.truthy command
      then check_no_powershell command rule_config
      else (true, None) in
    if negb passed then
      log_triggered "no_powershell" message ;;
      mret (false, message, Some (default "block" (action rule_config)))
    else
    (* no_bash_file_ops (Bash) *)
    let rule_config := rule_of config "no_bash_file_ops" in
    let '(passed, message) :=
      if rule_enabled rule_config && String.eqb tool_name "Bash"
         && PyStr.truthy command
      then check_no_bash_file_ops command rule_config
      else (true, None) in
    if negb passed then
      log_triggered "no_bash_file_ops" message ;;
      mret (false, message, Some (default "warn" (action rule_config)))
    else mret (true, None, None).

(** ** The checks in declaration order *)

(** What a failing rule hands back. *)
Record violation := mkViolation {
  v_rule : string;
  v_message : option string;
  v_action : option string
}.

Definition outcome_of (name : string) (r : bool * option string)
    (act : option string) : option violation :=
  let '(passed, message) := r in
  if passed then None else Some (mkViolation name message act).

Definition content_of (tool_name : string) (ti : tool_input) : string :=
  if is_edit_write tool_name then
    default "" (PyStr.or_else (in_new_string ti)
                  (Some (default "" (in_content ti))))
  else "".
Definition file_path_of (tool_name : string) (ti : tool_input) : string :=
  if is_edit_write tool_name then default "" (in_file_path ti) else "".
Definition command_of (tool_name : string) (ti : tool_input) : string :=
  if String.eqb tool_name "Bash" then default "" (in_command ti) else "".

(** The seven rules in the order of their declaration, each with its
    outcome: [None] when the rule is disabled, does not apply to the tool,
    or passes. *)
Definition rule_outcomes (tool_name : string) (ti : tool_input)
    (config : constraints_config) : list (option violation) :=
  let content := content_of tool_name ti in
  let file_path := file_path_of tool_name ti in
  let command := command_of tool_name ti in
  let on_content rc :=
    rule_enabled rc && is_edit_write tool_name && PyStr.truthy content in
  let on_command rc :=
    rule_enabled rc && String.eqb tool_name "Bash" && PyStr.truthy command in
  [ (let rc := rule_of config "line_limit" in
     outcome_of "line_limit"
       (if on_content rc then check_line_limit content rc else (true, None))
       (Some (default "warn" (action rc))));
    (let rc := rule_of config "no_tabs" in
     outcome_of "no_tabs"
       (if on_content rc then check_no_tabs content file_path rc
        else (true, None))
       (Some (default "block" (action rc))));
    (let rc := rule_of config "no_hardcoded_path" in
     let '(passed, message, action_) :=
       if on_content rc then check_no_hardcoded_path content file_path rc
       else (true, None, None) in
     if passed then None
     else Some (mkViolation "no_hardcoded_path" message action_));
    (let rc := rule_of config "snake_case_naming" in
     outcome_of "snake_case_naming"
       (if rule_enabled rc && String.eqb tool_name "Write"
           && PyStr.truthy file_path
        then check_snake_case_naming file_path rc else (true, None))
       (Some (default "block" (action rc))));
    (let rc := rule_of config "no_backslash_path" in
     outcome_of "no_backslash_path"
       (if on_command rc then check_no_backslash_path command rc
        else (true, None))
       (Some (default "warn" (action rc))));
    (let rc := rule_of config "no_powershell" in
     outcome_of "no_powershell"
       (if on_command rc then check_no_powershell command rc
        else (true, None))
       (Some (default "block" (action rc))));
    (let rc := rule_of config "no_bash_file_ops" in
     outcome_of "no_bash_file_ops"
       (if on_command rc then check_no_bash_file_ops command rc
        else (true, None))
       (Some (default "warn" (action rc)))) ].

(** The names of the rules, in the order of their declaration. *)
Definition RULE_ORDER : list string :=
  [ "line_limit"; "no_tabs"; "no_hardcoded_path"; "snake_case_naming";
    "no_backslash_path"; "no_powershell"; "no_bash_file_ops" ].

(** The first failing rule of a list of outcomes. *)
Fixpoint first_violation (outcomes : list (option violation))
    : option violation :=
  match outcomes with
  | [] => None
  | Some v :: _ => Some v
  | None :: rest => first_violation rest
  end.

(** The result the first failing rule determines. *)
Definition verdict (tool_name : string) (ti : tool_input)
    (config : constraints_config) : bool * option string * option string :=
  if default false (constraints_enabled config) then
    match first_violation (rule_outcomes tool_name ti config) with
    | Some v => (false, v_message v, v_action v)
    | None => (true, None, None)
    end
  else (true, None, None).

(** [format_constraint_message(message, action)] *)
Definition format_constraint_message (message : string)
    (action : option string) : string :=
  if decide (action = Some "block") then "[BLOCK] " +:+ message
  else if decide (action = Some "warn") then "[WARN] " +:+ message
  else "[REMIND] " +:+ message.

End Constraints.
End Constraints.

(* ===================================================================== *)
(** * focus_hook.py: the pre-action branch of [main] *)
(* ===================================================================== *)

Module FocusHookMain.
Import FocusCore Constraints.

(** The JSON object read from standard input, with the entries the
    pre-action branch reads; an entry that is absent is [None]. *)
Record stdin := mkStdin {
  stdin_tool_name : option string;
  stdin_tool_input : option tool_input
}.

Definition empty_input : tool_input := mkInput None None None None None.

Section Main.
Context `{PyLib} `{Globals}.

(** The constraint checks of the [pre] branch. *)
Definition pre_constraints (stdin_data : option stdin)
    (args_tool : option string) (constraints_config : constraints_config)
    : IO unit :=
  match stdin_data with
  | None => mret tt
  | Some d =>
      let tool_name :=
        default (default "" (PyStr.or_else args_tool None))
                (stdin_tool_name d) in
      let tool_input := default empty_input (stdin_tool_input d) in
      '(allowed, message, action) ←
         check_constraints tool_name tool_input constraints_config;
      if negb allowed && PyStr.truthy (default "" message) then
        let formatted_msg :=
          format_constraint_message (default "" message) action in
        if decide (action = Some "block") then
          output_error formatted_msg (Some "PreToolUse") true ;;
          sys_exit 1
        else output_message "constraint" formatted_msg "PreToolUse"
      else mret tt
  end.

(** [main] for [--hook pre]: the constraint checks, then the rest of the
    branch (confirmation before a modification, recital of the
    objectives), then the [finally] block.  The rest of the branch is
    [after_constraints]. *)
Definition main_pre (focus_session_active : bool)
    (stdin_data : option stdin) (args_tool : option string)
    (constraints_config : constraints_config)
    (after_constraints : IO unit) : IO unit :=
  finally
    (if negb focus_session_active then
       logger_debug "main" "No active focus session, skipping hook"
     else
       pre_constraints stdin_data args_tool constraints_config ;;
       after_constraints)
    (flush_output (Some "PreToolUse") true).

End Main.
End FocusHookMain.

(* ===================================================================== *)
(** * A small library instance for the examples *)
(* ===================================================================== *)

(** The examples need the library functions at a few inputs only.  This
  instance agrees with Python on those inputs: timestamps of the form
  [YYYY-MM-DDTHH:MM:SS], ASCII bytes, the transcript lines listed in
  [demo_json_loads], and regular expressions without metacharacters. *)
Module Demo.

(** Transcript lines are written with ['] and read with the double quote
    of JSON. *)
Definition q_char (c : ascii) : ascii :=
  if Ascii.eqb c "'" then "034"%char else c.
Fixpoint q (s : string) : string :=
  match s with
  | "" => ""
  | String c s' => String (q_char c) (q s')
  end.

Definition bytes_of (s : string) : list byte := String.list_byte_of_string s.

Definition line_user_hello : string :=
  q "{'type':'user','timestamp':'2025-01-01T10:00:00','message':{'content':'hello'}}".
Definition line_assistant_long : string :=
  q "{'type':'assistant','timestamp':'2025-01-01T10:01:00','message':{'content':[{'type':'text','text':'a much longer answer that will not fit'}]}}".
Definition line_user_bye : string :=
  q "{'type':'user','timestamp':'2025-01-01T10:02:00','message':{'content':'bye'}}".
Definition line_snapshot : string :=
  q "{'type':'file-history-snapshot'}".
Definition line_bad_time : string :=
  q "{'type':'user','timestamp':'yesterday','message':{'content':'hi'}}".

Definition demo_json_loads (line : string) : option transcript_line :=
  if String.eqb line line_user_hello then
    Some (mkLine (Some "user") (Some "2025-01-01T10:00:00")
                 (Some (ContentStr "hello")))
  else if String.eqb line line_assistant_long then
    Some (mkLine (Some "assistant") (Some "2025-01-01T10:01:00")
                 (Some (ContentList
                          [ItemDict (Some "text")
                             (Some "a much longer answer that will not fit")
                             None])))
  else if String.eqb line line_user_bye then
    Some (mkLine (Some "user") (Some "2025-01-01T10:02:00")
                 (Some (ContentStr "bye")))
  else if String.eqb line line_snapshot then
    Some (mkLine (Some "file-history-snapshot") None None)
  else if String.eqb line line_bad_time then
    Some (mkLine (Some "user") (Some "yesterday") (Some (ContentStr "hi")))
  else None.

Definition demo_fromisoformat (s : string) : string + string :=
  if (String.length s =? 19)%nat then inr s
  else inl ("Invalid isoformat string: '" +:+ s +:+ "'").

Definition demo_strftime (dt fmt : string) : string :=
  let hm := String.substring 11 5 dt in
  let ymd := String.substring 0 10 dt in
  if String.eqb fmt "[%H:%M]" then "[" +:+ hm +:+ "]"
  else if String.eqb fmt "%H:%M" then hm
  else if String.eqb fmt "%Y-%m-%d %H:%M" then ymd +:+ " " +:+ hm
  else fmt.

#[export] Instance demo_lib : PyLib := {|
  datetime := string;
  fromisoformat := demo_fromisoformat;
  strftime := demo_strftime;
  utf8_decode := String.string_of_list_byte;
  json_loads := demo_json_loads;
  json := list byte;
  empty_dict := bytes_of "{}";
  json_load bs :=
    if decide (bs = bytes_of "{}") then inr bs
    else inl "Expecting value: line 1 column 1 (char 0)";
  format_msg func_name msg := bytes_of (func_name +:+ ": " +:+ msg) ++ [x0a];
  format_verbose content := bytes_of content;
  re_search pattern _ s := PyStr.contains pattern s;
  re_match pattern s := PyStr.startswith s pattern;
  re_sub pattern repl s := PyStr.replace pattern repl s
|}.

(** The default configuration of the scripts. *)
#[export] Instance demo_globals : Globals := {|
  logger_level := 1;
  logger_rotate_lines := 1000;
  logger_logs_dir := ".claude/tmp/focus/logs";
  DEFAULT_CHAR_BUDGET := 50000;
  MAX_ENTRY_LENGTH := 400;
  DECAY_FACTOR := 1 # 2;
  MIN_SESSION_BUDGET := 1000;
  NOISE_PATTERNS := [];
  TOOLS_TO_FILTER := [];
  MAX_STRIKES := 3;
  ERROR_PATTERNS := ["error"; "failed"; "denied"]
|}.

Definition empty_world : World :=
  mkWorld ∅ FileAbsent None [] [] None.

End Demo.

(* ===================================================================== *)
(** * focus_core.py: the sessions of the operation log *)
(* ===================================================================== *)

Module Sessions.
Import Checkpoint.

(** The [for op in operations] loop of
    [get_all_session_ids_from_operations], with its set [seen] and its
    list [ordered]. *)
Fixpoint session_ids_loop (operations : list operation)
    (seen : gset string) (ordered : list string) : list string :=
  match operations with
  | [] => ordered
  | op :: rest =>
      match op_session_id op with
      | Some sid =>
          if PyStr.truthy sid && negb (bool_decide (sid ∈ seen)) then
            session_ids_loop rest ({[ sid ]} ∪ seen) (ordered ++ [sid])
          else session_ids_loop rest seen ordered
      | None => session_ids_loop rest seen ordered
      end
  end.

(** [get_all_session_ids_from_operations(operations)] *)
Definition get_all_session_ids_from_operations
    (operations : list operation) : list string :=
  session_ids_loop operations ∅ [].

(** [project_dir / f"{sid}.jsonl"] *)
Definition transcript_of (project_dir sid : string) : string :=
  path_join project_dir (sid +:+ ".jsonl").

(** [get_session_transcripts_from_operations(operations, project_path)];
    [project_dir] is what [get_project_dir(project_path)] returns, and a
    transcript exists when the world has bytes under its path. *)
Definition get_session_transcripts_from_operations
    (operations : list operation) (project_dir : option string)
    : IO (list (string * string)) :=
  let session_ids := get_all_session_ids_from_operations operations in
  match project_dir with
  | None => mret []
  | Some dir =>
      w ← get;
      mret (omap (λ sid,
                    let transcript := transcript_of dir sid in
                    if bool_decide (is_Some (files w !! transcript))
                    then Some (sid, transcript) else None)
                 session_ids)
  end.

End Sessions.

(* ===================================================================== *)
(** * checkpoint_session.py: the sessions a checkpoint works on *)
(* ===================================================================== *)

Module CheckpointSessions.
Import Checkpoint Sessions.

(** [for op in ops: sid = ...; if sid: return sid] and [return None] *)
Fixpoint first_session_id (ops : list operation) : option string :=
  match ops with
  | [] => None
  | op :: rest =>
      match op_session_id op with
      | Some sid =>
          if PyStr.truthy sid then Some sid else first_session_id rest
      | None => first_session_id rest
      end
  end.

(** [get_current_session_id(operations)]: the loop runs over
    [reversed(operations)]. *)
Definition get_current_session_id (operations : list operation)
    : option string :=
  first_session_id (rev operations).

(** [get_sessions_to_process(operations, project_path)] *)
Definition get_sessions_to_process (operations : list operation)
    (project_dir : option string) : IO (list (string * string)) :=
  let current_sid := get_current_session_id operations in
  let all_sids := get_all_session_ids_from_operations operations in
  match project_dir with
  | None => mret []
  | Some dir =>
      w ← get;
      mret (omap (λ sid,
                    if bool_decide (Some sid = current_sid) then None
                    else
                      let transcript := transcript_of dir sid in
                      if bool_decide (is_Some (files w !! transcript))
                      then Some (sid, transcript) else None)
                 all_sids)
  end.

(** [--mode] of the checkpoint. *)
Inductive mode := Silent | Interactive | Oldest.

(** [sessions[:1]] for the modes interactive and oldest, every old
    session for silent. *)
Definition sessions_to_process (m : mode)
    (sessions : list (string * string)) : list (string * string) :=
  match m with
  | Interactive | Oldest => firstn 1 sessions
  | Silent => sessions
  end.

(** [processed_sids] at the end of the loop of [main]: the id of every
    session of [sessions_to_process], in order. *)
Definition processed_sids (m : mode) (sessions : list (string * string))
    : list string :=
  map fst (sessions_to_process m sessions).

End CheckpointSessions.

(* ===================================================================== *)
(** * focus_hook.py: recording an operation *)
(* ===================================================================== *)

Module Recorder.

(** The entries of the hook's standard input that [record_operation]
    reads; an entry that is absent or [null] is [None]. *)
Record hook_stdin := mkHookStdin {
  hs_session_id : option string;
  hs_tool_use_id : option string;
  hs_hook_event_name : option string;
  hs_tool_name : option string
}.

(** The record that is written; [now] is [datetime.now().isoformat()]. *)
Definition record_of (d : hook_stdin) (hook_type now : string)
    : operation :=
  mkOp now hook_type
    (Some (mkIds (hs_session_id d) (hs_tool_use_id d)
                 (hs_hook_event_name d) (hs_tool_name d))).

(** [record_operation(stdin_data, hook_type)]; [stdin_data] is [None]
    when it is [None] or an empty dict, and the write goes through: the
    line of the record is put after what the file holds. *)
Definition record_operation (stdin_data : option hook_stdin)
    (hook_type now : string) : IO unit :=
  match stdin_data with
  | None => mret tt
  | Some d =>
      modify (λ w,
        set_operations_file
          (Some (default [] (operations_file w)
                 ++ [Some (record_of d hook_type now)])) w)
  end.

End Recorder.

(* ===================================================================== *)
(** * focus_hook.py: the post-action branch of [main] *)
(* ===================================================================== *)

Module FocusHookPost.
Import FocusCore FocusHook Recorder.

(** The JSON object the post-action hook reads from standard input:
    the entries [record_operation] reads, [tool_input] ([None] when it is
    not a dict) and [tool_response]. *)
Record post_stdin := mkPostStdin {
  ps_ids : hook_stdin;
  ps_tool_input : option tool_input;
  ps_tool_response : tool_response
}.

Section Main.
Context `{PyLib} `{Globals}.

(** The three-strike protocol of the [post] branch and the recording of
    the operation that follows it. *)
Definition post_strikes (stdin_data : option post_stdin) (now : string)
    : IO unit :=
  match stdin_data with
  | None => mret tt
  | Some d =>
      strike_msg ← check_and_update_strikes (hs_tool_name (ps_ids d))
                     (ps_tool_input d) (ps_tool_response d);
      if PyStr.truthy (default "" strike_msg) then
        output_message "strike" (default "" strike_msg) "PostToolUse"
      else mret tt
  end ;;
  record_operation (ps_ids <$> stdin_data) "PostToolUse" now.

(** [main] for [--hook post]: the strikes and the record, then the rest
    of the branch (the reminders and the commit check), then the
    [finally] block.  The rest of the branch is [after_record]; [now] is
    the time of the record. *)
Definition main_post (focus_session_active : bool)
    (stdin_data : option post_stdin) (now : string)
    (after_record : IO unit) : IO unit :=
  finally
    (if negb focus_session_active then
       logger_debug "main" "No active focus session, skipping hook"
     else
       post_strikes stdin_data now ;;
       after_record)
    (flush_output (Some "PostToolUse") true).

End Main.
End FocusHookPost.

(* ===================================================================== *)
(** * focus_core.py: merging configurations *)
(* ===================================================================== *)

Module Config.

(** A JSON value as [deep_merge] sees it: a dict, with its entries in
    insertion order, or any other value, kept as its text. *)
Inductive jvalue :=
| JAtom (text : string)
| JDict (entries : jdict)
with jdict :=
| JNil
| JCons (key : string) (value : jvalue) (rest : jdict).

(** [d.get(key)], [None] for an absent key *)
Fixpoint jget (key : string) (d : jdict) : option jvalue :=
  match d with
  | JNil => None
  | JCons k v rest => if String.eqb k key then Some v else jget key rest
  end.

(** [d[key] = v]: in place for a key of [d], at the end for a new one *)
Fixpoint jset (key : string) (v : jvalue) (d : jdict) : jdict :=
  match d with
  | JNil => JCons key v JNil
  | JCons k v' rest =>
      if String.eqb k key then JCons k v rest
      else JCons k v' (jset key v rest)
  end.

(** [deep_merge(base, override)]: [base] is the copy [result] that the
    loop over the entries of [override] updates. *)
Fixpoint deep_merge (base override : jdict) {struct override} : jdict :=
  match override with
  | JNil => base
  | JCons key value rest =>
      let result :=
        match jget key base, value with
        | Some (JDict mine), JDict theirs =>
            jset key (JDict (deep_merge mine theirs)) base
        | _, _ => jset key value base
        end in
      deep_merge result rest
  end.

(** The keys of a dict, in order. *)
Fixpoint jkeys (d : jdict) : list string :=
  match d with
  | JNil => []
  | JCons k _ rest => k :: jkeys rest
  end.

End Config.

(* ===================================================================== *)
(** * Facts about the reverse reader *)
(* ===================================================================== *)

Module ReverseReaderFacts.
Import PyBytes RecoverContext.

Definition no_nl (bs : list byte) : Prop :=
  Forall (λ b, is_nl b = false) bs.

Lemma split_nl_cons (bs : list byte) :
  split_nl bs = hd [] (split_nl bs) :: tl (split_nl bs).
Proof.
  destruct bs as [|b bs]; simpl; [done|]. by destruct (is_nl b).
Qed.

Lemma split_nl_hd_no_nl (bs : list byte) : no_nl (hd [] (split_nl bs)).
Proof.
  induction bs as [|b bs IH]; simpl; [constructor|].
  destruct (is_nl b) eqn:E; simpl; [constructor|].
  by constructor.
Qed.

Lemma split_nl_no_nl (bs : list byte) : no_nl bs → split_nl bs = [bs].
Proof.
  induction 1 as [|b bs Hb _ IH]; simpl; [done|].
  by rewrite Hb, IH.
Qed.

Lemma hd_app_cons {A} (d : A) (l k : list A) :
  l ≠ [] → hd d (l ++ k) = hd d l ∧ tl (l ++ k) = tl l ++ k.
Proof. by destruct l. Qed.

(** Splitting a buffer with more bytes put in front touches only the
    first piece of what was split before. *)
Lemma split_nl_app (p x : list byte) :
  split_nl (p ++ x)
  = split_nl (p ++ hd [] (split_nl x)) ++ tl (split_nl x).
Proof.
  induction p as [|b p IH]; simpl.
  - rewrite (split_nl_no_nl _ (split_nl_hd_no_nl x)). apply split_nl_cons.
  - destruct (is_nl b); simpl; [by rewrite IH|].
    rewrite IH.
    destruct (hd_app_cons (@nil byte) (split_nl (p ++ hd [] (split_nl x)))
                (tl (split_nl x))) as [-> ->]; [|done].
    rewrite (split_nl_cons (p ++ _)). discriminate.
Qed.

Section WithLib.
Context `{PyLib}.

Lemma yield_reversed_app (a b : list (list byte)) :
  yield_reversed (a ++ b) = yield_reversed b ++ yield_reversed a.
Proof.
  unfold yield_reversed. by rewrite rev_app_distr, List.filter_app, map_app.
Qed.

Lemma yield_reversed_naive (f : list byte) :
  yield_reversed (split_nl f) = naive_reverse_lines f.
Proof.
  unfold yield_reversed, naive_reverse_lines.
  rewrite <- map_rev. f_equal.
  induction (split_nl f) as [|l ls IH]; simpl; [done|].
  rewrite List.filter_app, IH. simpl.
  destruct (truthy l); simpl; [done|]. by rewrite app_nil_r.
Qed.

Lemma seek_read_take (f : list byte) (pos size : Z) :
  0 ≤ pos → 0 ≤ size →
  firstn (Z.to_nat (pos + size)) f
  = firstn (Z.to_nat pos) f ++ seek_read f pos size.
Proof.
  intros Hp Hs. unfold seek_read.
  destruct (Z.ltb_spec size 0) as [?|_]; [lia|].
  rewrite Z2Nat.inj_add by lia. by rewrite take_take_drop.
Qed.

(** The loop, entered with [remaining] bytes unread and a [buffer] free
    of newlines, yields the lines of the unread prefix followed by the
    buffer. *)
Lemma reverse_readline_loop_spec (f : list byte) (buf_size : Z) :
  0 < buf_size →
  ∀ (fuel : nat) (remaining : Z) (buffer : list byte),
    0 ≤ remaining ≤ Z.of_nat fuel →
    no_nl buffer →
    reverse_readline_loop fuel f buf_size remaining buffer
    = Some (yield_reversed
              (split_nl (firstn (Z.to_nat remaining) f ++ buffer))).
Proof.
  intros Hbuf fuel.
  induction fuel as [|fuel IH]; intros remaining buffer Hrem Hno; simpl.
  - assert (remaining = 0) as -> by lia. simpl.
    rewrite (split_nl_no_nl _ Hno). by destruct buffer.
  - destruct (Z.ltb_spec 0 remaining) as [Hpos|Hz].
    + set (read_size := Z.min buf_size remaining).
      assert (0 < read_size ≤ remaining) as Hrs by (unfold read_size; lia).
      rewrite IH; [|lia|apply split_nl_hd_no_nl]. simpl. f_equal.
      rewrite <- yield_reversed_app, <- split_nl_app.
      do 2 f_equal. rewrite app_assoc. f_equal.
      rewrite <- seek_read_take by lia. do 2 f_equal. lia.
    + assert (remaining = 0) as -> by lia. simpl.
      rewrite (split_nl_no_nl _ Hno). by destruct buffer.
Qed.

Lemma reverse_readline_fuel_spec (f : list byte) (buf_size : Z)
    (fuel : nat) :
  0 < buf_size → (length f ≤ fuel)%nat →
  reverse_readline_fuel fuel f buf_size = Some (naive_reverse_lines f).
Proof.
  intros Hbuf Hfuel. unfold reverse_readline_fuel.
  destruct (Z.eqb_spec (Z.of_nat (length f)) 0) as [Hz|Hnz].
  - destruct f; [done|simpl in Hz; lia].
  - rewrite reverse_readline_loop_spec; [|done|lia|constructor].
    rewrite Nat2Z.id, firstn_all, app_nil_r.
    by rewrite yield_reversed_naive.
Qed.

(** C10. For every file and every positive buffer size, the block-wise
    reverse reader ends and yields exactly what the naive reader gives:
    the non-empty newline-separated lines of the file, last line first,
    each decoded and with its trailing carriage returns stripped.  The
    result does not depend on the buffer size, nor on the number of rounds
    allowed once there is one per byte. *)
Theorem reverse_readline_refines_naive (f : list byte) (buf_size : Z) :
  0 < buf_size →
  reverse_readline f buf_size = Some (naive_reverse_lines f)
  ∧ ∀ fuel : nat, (length f ≤ fuel)%nat →
      reverse_readline_fuel fuel f buf_size = Some (naive_reverse_lines f).
Proof.
  intros Hbuf. split.
  - by apply reverse_readline_fuel_spec.
  - intros fuel Hfuel. by apply reverse_readline_fuel_spec.
Qed.

End WithLib.
End ReverseReaderFacts.

(* ===================================================================== *)
(** * Effects: what the logger touches *)
(* ===================================================================== *)

Module IOFacts.

(** A computation that always returns and changes nothing but the byte
    files. *)
Definition writes_files_only {A} (m : IO A) : Prop :=
  ∀ w, ∃ a fs, m w = Returns a (set_files fs w).

Lemma set_files_set_files fs fs' w :
  set_files fs (set_files fs' w) = set_files fs w.
Proof. done. Qed.

Lemma set_files_id w : set_files (files w) w = w.
Proof. by destruct w. Qed.

Lemma bind_Returns {A B} (m : IO A) (k : A → IO B) w a w' :
  m w = Returns a w' → (m ≫= k) w = k a w'.
Proof. intros Hm. unfold mbind, IO_bind, bind. by rewrite Hm. Qed.

Lemma writes_ret {A} (a : A) : writes_files_only (mret a : IO A).
Proof. intros w. exists a, (files w). by rewrite set_files_id. Qed.

Lemma writes_bind {A B} (m : IO A) (k : A → IO B) :
  writes_files_only m → (∀ a, writes_files_only (k a)) →
  writes_files_only (m ≫= k).
Proof.
  intros Hm Hk w. destruct (Hm w) as (a & fs & Ha).
  destruct (Hk a (set_files fs w)) as (b & fs' & Hb).
  exists b, fs'. unfold mbind, IO_bind, bind. by rewrite Ha, Hb.
Qed.

Lemma writes_for_each {A} (xs : list A) (body : A → IO unit) :
  (∀ x, writes_files_only (body x)) →
  writes_files_only (for_each xs body).
Proof.
  intros Hb. induction xs as [|x xs IH]; simpl.
  - apply (writes_ret tt).
  - apply (writes_bind (body x) (λ _, for_each xs body)); auto.
Qed.

Section WithLib.
Context `{PyLib} `{Globals}.

Lemma writes_atomic_write p c : writes_files_only (_atomic_write p c).
Proof. intros w. by exists tt, (<[p:=c]> (files w)). Qed.

Lemma writes_append p c : writes_files_only (_append p c).
Proof.
  intros w. exists tt, (<[p:=default [] (files w !! p) ++ c]> (files w)).
  done.
Qed.

Lemma writes_append_with_rotate p c :
  writes_files_only (_append_with_rotate p c).
Proof.
  intros w. unfold _append_with_rotate, mbind, IO_bind, bind, get.
  apply writes_atomic_write.
Qed.

Lemma writes_logger_error f m : writes_files_only (logger_error f m).
Proof. apply writes_append. Qed.

Lemma writes_logger_info f m : writes_files_only (logger_info f m).
Proof.
  unfold logger_info. destruct (logger_level <? 1).
  - apply (writes_ret tt).
  - apply writes_append_with_rotate.
Qed.

Lemma writes_logger_debug f m : writes_files_only (logger_debug f m).
Proof.
  unfold logger_debug. destruct (logger_level <? 2).
  - apply (writes_ret tt).
  - apply writes_append.
Qed.

Lemma writes_logger_verbose f m : writes_files_only (logger_verbose f m).
Proof.
  unfold logger_verbose. destruct (logger_level <? 2).
  - apply (writes_ret tt).
  - apply writes_atomic_write.
Qed.

(** The only file [logger.error] writes is the error log. *)
Lemma logger_error_files f m w :
  ∃ fs, logger_error f m w = Returns tt (set_files fs w)
        ∧ ∀ p, p ≠ logs_file "error.log" → fs !! p = files w !! p.
Proof.
  exists (<[logs_file "error.log" :=
             default [] (files w !! logs_file "error.log")
             ++ format_msg f m]> (files w)).
  split; [done|]. intros p Hp. by rewrite lookup_insert_ne.
Qed.

End WithLib.

Create HintDb io.
#[export] Hint Resolve writes_logger_error writes_logger_info
  writes_logger_debug writes_logger_verbose : io.

End IOFacts.

Ltac io_unfold :=
unfold mbind, mret, IO_bind, IO_ret, bind, ret, get, modify, print,
  sys_exit in *.

(* ===================================================================== *)
(** * focus_hook.py: failure classification *)
(* ===================================================================== *)

Module DetectFailureFacts.
Import FocusHook.

Section WithLib.
Context `{PyLib} `{Globals}.

Lemma first_pattern_Some text :
  is_Some (first_pattern text)
  ↔ ∃ pattern, In pattern ERROR_PATTERNS
               ∧ PyStr.contains pattern text = true.
Proof.
  unfold first_pattern. split.
  - intros [p Hp]. apply find_some in Hp. by exists p.
  - intros (p & Hin & Hp).
    destruct (List.find _ ERROR_PATTERNS) eqn:E; [by eexists|].
    pose proof (find_none _ _ E p Hin) as Hn. simpl in Hn. congruence.
Qed.

Lemma truthy_nonempty s : PyStr.truthy s = true ↔ s ≠ "".
Proof. by destruct s. Qed.

(** A dict response fails exactly when its error entry is non-empty and
    holds a configured pattern once lower-cased. *)
Lemma detect_failure_dict error body :
  fst (detect_failure (RespDict error body)) = true
  ↔ ∃ e, error = Some e ∧ e ≠ "" ∧ pattern_occurs e.
Proof.
  unfold pattern_occurs. simpl. destruct error as [e|].
  - destruct (PyStr.truthy e) eqn:Et; simpl.
    + destruct (first_pattern (PyStr.lower e)) eqn:Ef; simpl.
      * split; [|done]. intros _. exists e. split; [done|].
        split; [by apply truthy_nonempty|].
        apply first_pattern_Some. by eexists.
      * split; [done|]. intros (e' & [= <-] & _ & Hp).
        apply first_pattern_Some in Hp. rewrite Ef in Hp.
        by destruct Hp.
    + split; [done|]. intros (e' & [= <-] & Hne & _).
      apply truthy_nonempty in Hne. congruence.
  - split; [done|]. by intros (e' & ? & _).
Qed.

Lemma detect_failure_str s :
  fst (detect_failure (RespStr s)) = true ↔ s ≠ "" ∧ pattern_occurs s.
Proof.
  unfold pattern_occurs. simpl.
  destruct (PyStr.truthy s) eqn:Et; simpl.
  - destruct (first_pattern (PyStr.lower s)) eqn:Ef; simpl.
    + split; [|done]. intros _. split; [by apply truthy_nonempty|].
      apply first_pattern_Some. by eexists.
    + split; [done|]. intros [_ Hp].
      apply first_pattern_Some in Hp. rewrite Ef in Hp. by destruct Hp.
  - split; [done|]. intros [Hne _].
    apply truthy_nonempty in Hne. congruence.
Qed.

(** C6, as the code has it.  For a response that is a dict,
    [detect_failure] reports a failure exactly when the error entry is
    non-empty and a configured pattern occurs in its lower-cased text; the
    body of the response is never looked at, so a dict without an error
    entry, or with an empty one, is never a failure.  A response that is a
    bare string has no error entry and is scanned whole. *)
Theorem detect_failure_error_field :
  (∀ error body,
      fst (detect_failure (RespDict error body)) = true
      ↔ ∃ e, error = Some e ∧ e ≠ "" ∧ pattern_occurs e)
  ∧ (∀ error body body',
      detect_failure (RespDict error body)
      = detect_failure (RespDict error body'))
  ∧ (∀ body, detect_failure (RespDict None body) = (false, None)
             ∧ detect_failure (RespDict (Some "") body) = (false, None))
  ∧ detect_failure RespNone = (false, None)
  ∧ (∀ s, fst (detect_failure (RespStr s)) = true
          ↔ s ≠ "" ∧ pattern_occurs s).
Proof.
  split; [apply detect_failure_dict|].
  split; [done|]. split; [done|]. split; [done|].
  apply detect_failure_str.
Qed.

End WithLib.

(** C6 as stated fails: a bare string has no error entry, and is a
    failure as soon as its text holds a pattern. *)
Lemma detect_failure_scans_bare_string :
  response_error (RespStr "Permission denied") = None
  ∧ detect_failure (H0 := Demo.demo_globals) (RespStr "Permission denied")
    = (true, Some "permission denied").
Proof. split; reflexivity. Qed.

End DetectFailureFacts.

(* ===================================================================== *)
(** * State files: fatal and swallowed parse errors *)
(* ===================================================================== *)

Module StateFileFacts.
Import FocusCore FocusHook.

Section WithLib.
Context `{PyLib} `{Globals}.

(** What [load_failure_counts] returns in a world. *)
Definition loaded_counts (w : World) : gmap string strike_entry :=
  match failure_count_file w with
  | FileJson v => v
  | _ => ∅
  end.

Lemma load_failure_counts_returns w :
  ∃ fs, load_failure_counts w = Returns (loaded_counts w) (set_files fs w).
Proof.
  unfold load_failure_counts, loaded_counts. io_unfold.
  destruct (failure_count_file w) as [|e|v].
  - exists (files w). by rewrite IOFacts.set_files_id.
  - destruct (IOFacts.logger_error_files "load_failure_counts" e w)
      as (fs & -> & _). by exists fs.
  - exists (files w). by rewrite IOFacts.set_files_id.
Qed.

Lemma persisted_count_loaded K w :
  persisted_count K w = count <$> loaded_counts w !! K.
Proof.
  unfold persisted_count, loaded_counts.
  by destruct (failure_count_file w).
Qed.

(** C5, as the code has it.  A state file read through [load_json_file]
    that exists and does not parse ends the run: the block response with
    its [[FATAL]] reason is printed and the exit status is 2; nothing is
    returned.  The failure-count file is not read through it:
    [load_failure_counts] writes the parse error to the error log and
    returns the empty mapping, and prints nothing. *)
Theorem corrupt_state_file (w : World) (filepath : string)
    (bs : list byte) (e e' : string) :
  files w !! filepath = Some bs →
  json_load bs = inl e →
  failure_count_file w = FileCorrupt e' →
  load_json_file filepath w
  = Exits 2 (set_stdout
               (stdout w
                ++ [OutDecisionBlock
                      ("[FATAL] load_json_file failed: " +:+ filepath
                       +:+ ": " +:+ e)]) w)
  ∧ ∃ fs, load_failure_counts w = Returns ∅ (set_files fs w)
          ∧ fs !! logs_file "error.log"
            = Some (default [] (files w !! logs_file "error.log")
                    ++ format_msg "load_failure_counts" e').
Proof.
  intros Hfile Hparse Hcorrupt. split.
  - unfold load_json_file, _fatal_error. io_unfold.
    by rewrite Hfile, Hparse.
  - unfold load_failure_counts. io_unfold. rewrite Hcorrupt.
    eexists. split; [reflexivity|]. by rewrite lookup_insert_eq.
Qed.

End WithLib.

Import Demo.

Definition corrupt_world : World :=
  set_failure_count_file (FileCorrupt "Expecting value")
    (set_files {[ "focus.json" := Demo.bytes_of "{" ]} Demo.empty_world).

Lemma corrupt_state_file_witness :
  load_json_file "focus.json" corrupt_world
  = Exits 2 (set_stdout
               [OutDecisionBlock
                  ("[FATAL] load_json_file failed: focus.json: "
                   +:+ "Expecting value: line 1 column 1 (char 0)")]
               corrupt_world)
  ∧ ∃ fs, load_failure_counts corrupt_world
          = Returns ∅ (set_files fs corrupt_world)
          ∧ fs !! logs_file "error.log"
            = Some (default [] (files corrupt_world
                                !! logs_file "error.log")
                    ++ format_msg "load_failure_counts" "Expecting value").
Proof.
  apply (corrupt_state_file corrupt_world "focus.json"
           (Demo.bytes_of "{")
           "Expecting value: line 1 column 1 (char 0)" "Expecting value");
    reflexivity.
Defined.

(** C5 as stated fails for the failure-count file: when it is corrupt,
    loading returns the empty mapping and the run goes on. *)
Lemma load_failure_counts_swallows_corruption :
  ∃ w', load_failure_counts corrupt_world = Returns ∅ w'
        ∧ stdout w' = [].
Proof. eexists. split; reflexivity. Qed.

End StateFileFacts.

(* ===================================================================== *)
(** * focus_hook.py: the three-strike counter *)
(* ===================================================================== *)

Module StrikeFacts.
Import FocusHook StateFileFacts.

Section WithLib.
Context `{PyLib} `{Globals}.

(** One invocation: the message, and the count kept for every key. *)
Lemma check_and_update_strikes_step tool_name tool_input tool_response w :
  let K := get_operation_key tool_name tool_input in
  let fails := fst (detect_failure tool_response) in
  let n := default 0 (persisted_count K w) in
  ∃ w', check_and_update_strikes tool_name tool_input tool_response w
        = Returns (if fails then strike_message K (n + 1) else None) w'
        ∧ ∀ K', persisted_count K' w'
                = if decide (K' = K)
                  then (if fails then Some (n + 1) else None)
                  else persisted_count K' w.
Proof.
  intros K fails n. unfold check_and_update_strikes.
  destruct (detect_failure tool_response) as [is_failure snippet] eqn:Ed.
  subst fails. simpl.
  fold K.
  destruct (load_failure_counts_returns w) as (fs & Hload).
  rewrite (IOFacts.bind_Returns _ _ _ _ _ Hload).
  assert (Hn : n = default 0 (count <$> loaded_counts w !! K)).
  { unfold n. by rewrite persisted_count_loaded. }
  assert (Hp : ∀ K', persisted_count K' w = count <$> loaded_counts w !! K')
    by (intros; apply persisted_count_loaded).
  destruct is_failure.
  - unfold save_failure_counts. io_unfold. eexists. split.
    + f_equal. f_equal. rewrite Hn.
      destruct (loaded_counts w !! K) as [old|] eqn:Eold; simpl.
      * by rewrite Eold.
      * by rewrite lookup_insert_eq.
    + intros K'. unfold persisted_count at 1. simpl.
      destruct (decide (K' = K)) as [->|Hne].
      * rewrite lookup_insert_eq. simpl. f_equal. rewrite Hn.
        destruct (loaded_counts w !! K) as [old|] eqn:Eold; simpl.
        -- by rewrite Eold.
        -- by rewrite lookup_insert_eq.
      * rewrite lookup_insert_ne by done. rewrite Hp.
        destruct (loaded_counts w !! K) as [old|] eqn:Eold; [done|].
        by rewrite lookup_insert_ne.
  - destruct (loaded_counts w !! K) as [old|] eqn:Eold.
    + unfold save_failure_counts. io_unfold. eexists. split; [done|].
      intros K'. unfold persisted_count at 1. simpl.
      destruct (decide (K' = K)) as [->|Hne].
      * by rewrite lookup_delete_eq.
      * rewrite lookup_delete_ne by done. by rewrite Hp.
    + eexists. split; [done|]. intros K'.
      assert (persisted_count K' (set_files fs w) = persisted_count K' w)
        as -> by done.
      destruct (decide (K' = K)) as [->|Hne]; [|done].
      by rewrite Hp, Eold.
Qed.

Lemma run_strikes_app (l1 l2 : list post_event) (w : World) :
  run_strikes (l1 ++ l2) w
  = match run_strikes l1 w with
    | Returns m1 w1 =>
        match run_strikes l2 w1 with
        | Returns m2 w2 => Returns (m1 ++ m2) w2
        | Exits c w2 => Exits c w2
        | Diverges => Diverges
        end
    | Exits c w1 => Exits c w1
    | Diverges => Diverges
    end.
Proof.
  revert w. induction l1 as [|ev l1 IH]; intros w; simpl.
  - io_unfold. by destruct (run_strikes l2 w).
  - io_unfold.
    destruct (check_and_update_strikes _ _ _ w) as [m w1| |]; [|done..].
    rewrite IH. destruct (run_strikes l1 w1) as [m1 w2| |]; [|done..].
    by destruct (run_strikes l2 w2).
Qed.

Lemma leading_failures_nonneg l : 0 ≤ leading_failures l.
Proof. induction l as [|[] l IH]; simpl; lia. Qed.

Lemma trailing_run_nonneg K events : 0 ≤ trailing_run K events.
Proof. apply leading_failures_nonneg. Qed.

Lemma trailing_run_snoc K events ev :
  trailing_run K (events ++ [ev])
  = if String.eqb (event_key ev) K
    then (if event_fails ev then 1 + trailing_run K events else 0)
    else trailing_run K events.
Proof.
  unfold trailing_run. rewrite List.filter_app. simpl.
  destruct (String.eqb (event_key ev) K); [|by rewrite app_nil_r].
  rewrite map_app, rev_app_distr. simpl. by destruct (event_fails ev).
Qed.

(** With at most three strikes configured, the message of the [n]-th
    consecutive failure is the tier of [n]. *)
Lemma strike_message_tier K n :
  MAX_STRIKES ≤ 3 → 1 ≤ n → strike_message K n = Some (tier_message K n).
Proof.
  intros Hmax Hn. unfold strike_message, tier_message.
  destruct (Z.eqb_spec n 1); [done|]. destruct (Z.eqb_spec n 2); [done|].
  destruct (Z.leb_spec MAX_STRIKES n); [done|lia].
Qed.

Definition count_of_run (n : Z) : option Z :=
  if n =? 0 then None else Some n.

Lemma run_strikes_spec K events : ∀ w,
  MAX_STRIKES ≤ 3 → persisted_count K w = None →
  ∃ msgs w', run_strikes events w = Returns msgs w'
    ∧ persisted_count K w' = count_of_run (trailing_run K events)
    ∧ length msgs = length events
    ∧ ∀ i ev, events !! i = Some ev → event_key ev = K →
        msgs !! i
        = Some (if event_fails ev
                then Some (tier_message K
                             (trailing_run K (firstn (S i) events)))
                else None)
        ∧ trailing_run K (firstn (S i) events)
          = if event_fails ev then trailing_run K (firstn i events) + 1
            else 0.
Proof.
  induction events as [|ev events IH] using rev_ind; intros w Hmax Hw.
  - exists [], w. split; [done|]. split; [done|]. split; [done|].
    intros i ev Hi. by rewrite lookup_nil in Hi.
  - destruct (IH w Hmax Hw) as (msgs & w1 & Hrun & Hcount & Hlen & Hmsgs).
    rewrite run_strikes_app, Hrun. simpl. io_unfold.
    destruct (check_and_update_strikes_step (ev_tool_name ev)
                (ev_tool_input ev) (ev_tool_response ev) w1)
      as (w2 & Hstep & Hcounts).
    rewrite Hstep. fold (event_key ev) in *. fold (event_fails ev) in *.
    eexists _, w2. split; [done|].
    pose proof (trailing_run_nonneg K events) as Hnn.
    split; [|split].
    + rewrite Hcounts, trailing_run_snoc.
      destruct (decide (K = event_key ev)) as [->|Hne].
      * rewrite String.eqb_refl, Hcount. unfold count_of_run.
        destruct (event_fails ev); [|done].
        destruct (Z.eqb_spec (trailing_run (event_key ev) events) 0) as [->|];
          simpl; [done|].
        destruct (Z.eqb_spec (1 + trailing_run (event_key ev) events) 0);
          [lia|]. f_equal. lia.
      * destruct (String.eqb_spec (event_key ev) K); [congruence|done].
    + rewrite !length_app. simpl. lia.
    + intros i ev' Hi Hkey.
      destruct (decide (i < length events)%nat) as [Hlt|Hge].
      * rewrite lookup_app_l in Hi by done.
        rewrite lookup_app_l by lia.
        rewrite !firstn_app.
        replace (S i - length events)%nat with 0%nat by lia.
        replace (i - length events)%nat with 0%nat by lia.
        simpl. rewrite !app_nil_r. by apply Hmsgs.
      * assert (i = length events) as ->.
        { apply lookup_lt_Some in Hi. rewrite length_app in Hi.
          simpl in Hi. lia. }
        rewrite list_lookup_middle in Hi by done.
        injection Hi as <-.
        rewrite list_lookup_middle by done.
        rewrite (firstn_all2 (n := S (length events)))
          by (rewrite length_app; simpl; lia).
        rewrite take_app_length.
        rewrite trailing_run_snoc, Hkey, String.eqb_refl.
        rewrite Hcount. unfold count_of_run.
        destruct (event_fails ev); [|done].
        split; [|lia]. do 2 f_equal.
        assert (default 0 (if trailing_run K events =? 0 then None
                           else Some (trailing_run K events))
                = trailing_run K events) as ->.
        { by destruct (Z.eqb_spec (trailing_run K events) 0) as [->|]. }
        rewrite strike_message_tier by lia. do 2 f_equal. lia.
Qed.

(** C3. Processing a sequence of post-action invocations from a state in
    which key [K] has no count leaves for [K] the length of its trailing
    run of consecutive failures, and no entry at all when that run is empty
    (the last outcome of [K] was a success, or there was none).  Each
    failure of [K] raises the count by exactly one and is answered by the
    tier of the new count: diagnose at 1, alternative approach at 2,
    escalation to the user at 3 and for every later failure.  A success of
    [K] removes its entry and gives no message. *)
Theorem strike_counter_trailing_run (K : string)
    (events : list post_event) (w : World) :
  MAX_STRIKES ≤ 3 →
  persisted_count K w = None →
  ∃ msgs w',
    run_strikes events w = Returns msgs w'
    ∧ persisted_count K w'
      = (if trailing_run K events =? 0 then None
         else Some (trailing_run K events))
    ∧ length msgs = length events
    ∧ (∀ i ev, events !! i = Some ev → event_key ev = K →
         msgs !! i
         = Some (if event_fails ev
                 then Some (tier_message K
                              (trailing_run K (firstn (S i) events)))
                 else None)
         ∧ trailing_run K (firstn (S i) events)
           = if event_fails ev then trailing_run K (firstn i events) + 1
             else 0)
    ∧ (∀ n, 3 ≤ n → tier_message K n = strike_message_3 K).
Proof.
  intros Hmax Hw.
  destruct (run_strikes_spec K events w Hmax Hw)
    as (msgs & w' & Hrun & Hcount & Hlen & Hmsgs).
  exists msgs, w'. repeat split; try done.
  - by apply Hmsgs.
  - by apply Hmsgs.
  - intros n Hn. unfold tier_message.
    destruct (Z.eqb_spec n 1); [lia|]. destruct (Z.eqb_spec n 2); [lia|done].
Qed.

End WithLib.
End StrikeFacts.

(* ===================================================================== *)
(** * checkpoint_session.py: pruning the operation log *)
(* ===================================================================== *)

Module PruneFacts.
Import Checkpoint IOFacts.

Lemma mem_In (x : string) (xs : list string) :
  PyStr.mem x xs = true ↔ In x xs.
Proof.
  unfold PyStr.mem. rewrite existsb_exists. split.
  - intros (y & Hin & Heq). apply String.eqb_eq in Heq. by subst.
  - intros Hin. exists x. split; [done|]. apply String.eqb_refl.
Qed.

Lemma filter_sublist {A} (f : A → bool) (l : list A) :
  sublist (List.filter f l) l.
Proof.
  induction l as [|x l IH]; simpl; [constructor|].
  destruct (f x); by constructor.
Qed.

Lemma filter_length_le {A} (f : A → bool) (l : list A) :
  (length (List.filter f l) ≤ length l)%nat.
Proof. apply sublist_length, filter_sublist. Qed.

Section WithLib.
Context `{PyLib} `{Globals}.

Lemma load_operations_returns w lines :
  operations_file w = Some lines →
  ∃ fs, load_operations w = Returns (omap id lines) (set_files fs w).
Proof.
  intros Hfile. unfold load_operations.
  rewrite (bind_Returns get _ w w w eq_refl). rewrite Hfile.
  set (body := λ line : option operation,
         match line with
         | Some _ => mret ()
         | None => logger_error "load_operations.json_parse" "JSONDecodeError"
         end).
  assert (Hb : writes_files_only (for_each lines body)).
  { apply writes_for_each. intros [op|]; simpl.
    - apply (writes_ret tt).
    - apply writes_logger_error. }
  destruct (Hb w) as ([] & fs & Hrun).
  rewrite (bind_Returns _ _ _ _ _ Hrun). by exists fs.
Qed.

(** The records a pruning keeps. *)
Definition kept (processed_sids : list string) (lines : list (option operation))
    : list operation :=
  List.filter (λ op, not_in_sids (op_session_id op) processed_sids)
              (omap id lines).

(** C4. Pruning a log that exists returns counts with
    [original = removed + remaining]; the records kept are exactly those of
    the log whose session id is not in the removal list (a record without a
    session id is kept), in their order; the file changes only when
    [dry_run] is false and a record was removed, and is then the kept
    records when the rewrite goes through; with [dry_run] the counts are
    the same and the file is left as it was. *)
Theorem remove_processed_sessions_prunes (processed_sids : list string)
    (dry_run : bool) (io : write_result) (w : World)
    (lines : list (option operation)) :
  operations_file w = Some lines →
  let L := omap id lines in
  let R := kept processed_sids lines in
  ∃ c w',
    remove_processed_sessions processed_sids dry_run io w = Returns c w'
    ∧ original c = removed c + remaining c
    ∧ original c = Z.of_nat (length L)
    ∧ remaining c = Z.of_nat (length R)
    ∧ (∃ c' w'', remove_processed_sessions processed_sids true io w
                 = Returns c' w''
                 ∧ c' = c ∧ operations_file w'' = operations_file w)
    ∧ sublist R L
    ∧ (∀ op, In op R ↔
             In op L ∧ ∀ sid, op_session_id op = Some sid
                              → ¬ In sid processed_sids)
    ∧ (operations_file w' ≠ operations_file w →
       dry_run = false ∧ 0 < removed c)
    ∧ (dry_run = false → 0 < removed c → io = WriteOk →
       operations_file w' = Some (map Some R)).
Proof.
  intros Hfile L R.
  assert (Hrun : ∀ dry, ∃ w',
    remove_processed_sessions processed_sids dry io w
    = Returns (mkCounts (Z.of_nat (length L))
                        (Z.of_nat (length L) - Z.of_nat (length R))
                        (Z.of_nat (length R))) w'
    ∧ (operations_file w' ≠ operations_file w →
       dry = false ∧ 0 < Z.of_nat (length L) - Z.of_nat (length R))
    ∧ (dry = false → 0 < Z.of_nat (length L) - Z.of_nat (length R) →
       io = WriteOk → operations_file w' = Some (map Some R))
    ∧ (dry = true → operations_file w' = operations_file w)).
  { intros dry. unfold remove_processed_sessions.
    rewrite (bind_Returns get _ w w w eq_refl). rewrite Hfile.
    destruct (load_operations_returns w lines Hfile) as (fs & Hload).
    rewrite (bind_Returns _ _ _ _ _ Hload).
    change (omap id lines) with L.
    change (List.filter _ L) with R.
    set (w0 := set_files fs w).
    destruct dry; simpl negb; cbv beta iota delta [andb].
    - exists w0. split; [reflexivity|]. split; [|done].
      intros Hne. by destruct Hne.
    - destruct (Z.ltb_spec 0 (Z.of_nat (length L) - Z.of_nat (length R)))
        as [Hpos|Hle].
      + destruct io as [|e|k e].
        * destruct (writes_logger_info "remove_processed_sessions"
                      ("Removed "
                       +:+ str_of_Z
                             (Z.of_nat (length L) - Z.of_nat (length R))
                       +:+ " records")
                      (set_operations_file (Some (map Some R)) w0))
            as ([] & fs' & Hlog).
          eexists. split.
          { unfold mbind, IO_bind, bind, modify. cbv beta iota.
            rewrite Hlog. reflexivity. }
          split; [done|]. split; [done|]. intros [=].
        * destruct (writes_logger_error "remove_processed_sessions" e w0)
            as ([] & fs' & Hlog).
          eexists. split.
          { unfold mbind, IO_bind, bind. rewrite Hlog. reflexivity. }
          split; [done|]. split; [done|]. intros [=].
        * destruct (writes_logger_error "remove_processed_sessions" e
                      (set_operations_file (Some (map Some (firstn k R))) w0))
            as ([] & fs' & Hlog).
          eexists. split.
          { unfold mbind, IO_bind, bind, modify. cbv beta iota.
            rewrite Hlog. reflexivity. }
          split; [done|]. split; [done|]. intros [=].
      + exists w0. split; [reflexivity|]. split; [|split].
        * intros Hne. by destruct Hne.
        * intros _ Hpos. lia.
        * intros [=]. }
  destruct (Hrun dry_run) as (w' & Heq & Honly & Hwritten & _).
  destruct (Hrun true) as (w'' & Heq' & _ & _ & Hdry).
  eexists _, w'. split; [exact Heq|]. simpl.
  split; [lia|]. split; [done|]. split; [done|].
  split.
  { eexists _, w''. split; [exact Heq'|]. split; [done|]. by apply Hdry. }
  split; [apply filter_sublist|].
  split; [|by split].
  intros op. unfold R, kept. rewrite filter_In. fold L.
  unfold not_in_sids. split.
  - intros [Hin Hkeep]. split; [done|]. intros sid Hsid Hmem.
    rewrite Hsid in Hkeep. apply mem_In in Hmem. by rewrite Hmem in Hkeep.
  - intros [Hin Hkeep]. split; [done|].
    destruct (op_session_id op) as [sid|]; [|done].
    destruct (PyStr.mem sid processed_sids) eqn:Em; [|done].
    apply mem_In in Em. by destruct (Hkeep sid eq_refl).
Qed.

End WithLib.
End PruneFacts.

(* ===================================================================== *)
(** * constraints.py and the pre-action branch of the hook *)
(* ===================================================================== *)

Module ConstraintFacts.
Import FocusCore Constraints FocusHookMain IOFacts.

Section WithLib.
Context `{PyLib} `{Globals}.

Lemma log_triggered_returns name message (r : bool * option string * option string) w :
  ∃ fs, (log_triggered name message ;; mret r) w
        = Returns r (set_files fs w).
Proof.
  destruct (writes_logger_debug "constraints"
              (name +:+ " triggered: " +:+ default "None" message) w)
    as ([] & fs & Hlog).
  exists fs. unfold log_triggered. by rewrite (bind_Returns _ _ _ _ _ Hlog).
Qed.

(** [check_constraints] returns what the first failing rule determines,
    and writes nothing but the debug log. *)
Lemma check_constraints_verdict tool_name ti config w :
  ∃ fs, check_constraints tool_name ti config w
        = Returns (verdict tool_name ti config) (set_files fs w).
Proof.
  unfold check_constraints, verdict, rule_outcomes, outcome_of,
    content_of, file_path_of, command_of.
  destruct (default false (constraints_enabled config)); simpl negb;
    cbv iota zeta; [|exists (files w); by rewrite set_files_id].
  repeat
    match goal with
    | |- context [match ?r with (_, _) => _ end] => destruct r as [? ?]
    end.
  repeat
    match goal with
    | |- context [negb ?b] => is_var b; destruct b
    end;
    cbn [negb first_violation v_message v_action];
    first [ apply log_triggered_returns
          | exists (files w); by rewrite set_files_id ].
Qed.

Lemma first_violation_position (outcomes : list (option violation)) v :
  first_violation outcomes = Some v →
  ∃ i, outcomes !! i = Some (Some v)
       ∧ ∀ j, (j < i)%nat → outcomes !! j = Some None.
Proof.
  induction outcomes as [|[v'|] rest IH]; simpl; [done| |].
  - intros [= ->]. exists 0%nat. split; [done|]. lia.
  - intros Hv. destruct (IH Hv) as (i & Hi & Hbefore).
    exists (S i). split; [done|]. intros [|j] Hj; [done|].
    apply Hbefore. lia.
Qed.

Lemma outcome_of_rule name r act v :
  outcome_of name r act = Some v →
  v_rule v = name ∧ fst r = false ∧ v_message v = snd r ∧ v_action v = act.
Proof.
  unfold outcome_of. destruct r as [[] m]; [done|]. by intros [= <-].
Qed.

(** A rule of the list sits at the place of its name. *)
Lemma rule_outcomes_names tool_name ti config i v :
  rule_outcomes tool_name ti config !! i = Some (Some v) →
  RULE_ORDER !! i = Some (v_rule v).
Proof.
  unfold rule_outcomes.
  do 7 (destruct i as [|i];
        [simpl; intros [= Hv];
         first [ apply outcome_of_rule in Hv as (<- & _); reflexivity
               | revert Hv;
                 match goal with
                 | |- context [match ?r with (_, _) => _ end] =>
                     destruct r as [[[] ?] ?]
                 end; [done|]; by intros [= <-] ]
        |]).
  done.
Qed.

(** The messages of the checks that carry their own text are not empty. *)
Lemma builtin_message_truthy tool_name ti config v :
  In (Some v) (rule_outcomes tool_name ti config) →
  v_rule v ≠ "no_hardcoded_path" →
  PyStr.truthy (default "" (v_message v)) = true.
Proof.
  unfold rule_outcomes. simpl In.
  intros [Hv|[Hv|[Hv|[Hv|[Hv|[Hv|[Hv|[]]]]]]]] Hname;
    try (apply outcome_of_rule in Hv as (_ & Hf & -> & _); revert Hf).
  - destruct (_ && _); [|done]. unfold check_line_limit.
    by destruct (_ <? _).
  - destruct (_ && _); [|done]. unfold check_no_tabs.
    destruct (negb _); [done|]. by destruct (PyStr.contains _ _).
  - revert Hv Hname.
    match goal with
    | |- context [match ?r with (_, _) => _ end] => destruct r as [[[] ?] ?]
    end; [done|]. by intros [= <-].
  - destruct (_ && _); [|done]. unfold check_snake_case_naming.
    destruct (_ || _); [done|]. destruct (splitext _) as [name ext].
    destruct (negb _); [done|]. destruct (is_all_uppercase _); [done|].
    destruct (negb _); [done|]. destruct (default true _); [|done].
    by destruct (List.find _ _).
  - destruct (_ && _); [|done]. unfold check_no_backslash_path.
    destruct (re_match _ _); [done|]. by destruct (PyStr.contains _ _).
  - destruct (_ && _); [|done]. unfold check_no_powershell.
    destruct (existsb _ _); [done|]. by destruct (_ && _).
  - destruct (_ && _); [|done]. unfold check_no_bash_file_ops.
    destruct (PyStr.contains _ _); [done|].
    by destruct (List.find _ _) as [[[? ?] ?]|].
Qed.

Lemma first_violation_In outcomes v :
  first_violation outcomes = Some v → In (Some v) outcomes.
Proof.
  intros Hv. destruct (first_violation_position _ _ Hv) as (i & Hi & _).
  apply list_elem_of_In. by eapply list_elem_of_lookup_2.
Qed.

Lemma output_error_deny message w :
  ∃ fs, output_error message (Some "PreToolUse") true w
        = Returns tt
            (set_pending [] None
               (set_stdout
                  (stdout w ++ [OutPermission "PreToolUse" "deny" message])
                  (set_files fs w))).
Proof.
  destruct (writes_logger_error "output_error" message w)
    as ([] & fs & Hlog).
  exists fs. unfold output_error.
  by rewrite (bind_Returns _ _ _ _ _ Hlog).
Qed.

Lemma output_message_pending tag message hook_event w :
  ∃ fs, output_message tag message hook_event w
        = Returns tt
            (set_pending (pending_messages w ++ [message]) (Some hook_event)
               (set_files fs w)).
Proof.
  destruct (writes_logger_debug tag
              (PyStr.slice_to (PyStr.replace PyStr.nl " | " message) 200) w)
    as ([] & fs & Hlog).
  exists fs. unfold output_message.
  by rewrite (bind_Returns _ _ _ _ _ Hlog).
Qed.

Lemma flush_output_nothing_pending hook_event as_json w :
  pending_messages w = [] → flush_output hook_event as_json w = Returns tt w.
Proof.
  intros Hp. unfold flush_output.
  rewrite (bind_Returns get _ w w w eq_refl). by rewrite Hp.
Qed.


End WithLib.

Import Demo.

(** A configuration that enables [no_tabs] alone, blocking, for Python
    files. *)
Definition no_tabs_config : constraints_config :=
  mkConstraints (Some true)
    {[ "no_tabs" := mkRule (Some true) (Some "block") None (Some [".py"])
                      None None None None None ]}.

Definition tab_edit (file_path : string) : stdin :=
  mkStdin (Some "Edit")
    (Some (mkInput (Some file_path) None None
             (Some ("x" +:+ String PyStr.TAB "y")) None)).


End ConstraintFacts.

(* ===================================================================== *)
(** * recover_context.py: the transcript extractor *)
(* ===================================================================== *)

Module ExtractorFacts.
Import RecoverContext IOFacts.

Section WithLib.
Context `{PyLib} `{Globals}.

(** A computation that returns [a] and writes at most the error log. *)
Definition logs_errors_only {A} (m : IO A) (a : A) : Prop :=
  ∀ w, ∃ fs, m w = Returns a (set_files fs w)
             ∧ ∀ p, p ≠ logs_file "error.log" → fs !! p = files w !! p.

Lemma logs_ret {A} (a : A) : logs_errors_only (mret a) a.
Proof. intros w. exists (files w). by rewrite set_files_id. Qed.

Lemma logs_bind {A B} (m : IO A) (k : A → IO B) a b :
  logs_errors_only m a → logs_errors_only (k a) b →
  logs_errors_only (m ≫= k) b.
Proof.
  intros Hm Hk w. destruct (Hm w) as (fs & Hrun & Hfs).
  destruct (Hk (set_files fs w)) as (fs' & Hrun' & Hfs').
  exists fs'. rewrite (bind_Returns _ _ _ _ _ Hrun). split; [done|].
  intros p Hp. rewrite Hfs' by done. by apply Hfs.
Qed.

Lemma logs_logger_error f m : logs_errors_only (logger_error f m) tt.
Proof. intros w. apply logger_error_files. Qed.

Lemma parse_timestamp_logs ts :
  logs_errors_only (parse_timestamp ts) (timestamp_of ts).
Proof.
  unfold parse_timestamp, timestamp_of. destruct ts as [s|]; [|apply logs_ret].
  destruct (negb (PyStr.truthy s)); [apply logs_ret|].
  destruct (fromisoformat _) as [e|dt]; [|apply logs_ret].
  eapply logs_bind; [apply logs_logger_error|apply logs_ret].
Qed.

Lemma extract_valuable_content_logs line truncate :
  logs_errors_only (extract_valuable_content line truncate)
                   (entry_of truncate line).
Proof.
  unfold extract_valuable_content, entry_of.
  destruct (json_loads line) as [data|]; [|apply logs_ret].
  eapply logs_bind; [apply parse_timestamp_logs|].
  destruct (decide _); [apply logs_ret|].
  destruct (decide _); apply logs_ret.
Qed.

Lemma cost_ge_2 e : 2 ≤ cost e.
Proof. unfold cost, PyStr.len. lia. Qed.

Lemma total_cost_nonneg es : 0 ≤ total_cost es.
Proof.
  induction es as [|e es IH]; simpl; [lia|]. pose proof (cost_ge_2 e). lia.
Qed.

Lemma total_cost_app es es' :
  total_cost (es ++ es') = total_cost es + total_cost es'.
Proof. induction es as [|e es IH]; simpl; lia. Qed.

(** The retained turns fit in the budget the walk started with. *)
Lemma walk_fits turns : ∀ remaining,
  fst (walk turns remaining) ≠ [] →
  total_cost (fst (walk turns remaining)) ≤ remaining.
Proof.
  induction turns as [|e older IH]; intros remaining; simpl; [done|].
  destruct (Z.leb_spec (cost e) remaining) as [Hfit|Hbig].
  - destruct (walk older (remaining - cost e)) as [retained skipped] eqn:Ew.
    simpl. intros _. specialize (IH (remaining - cost e)).
    rewrite Ew in IH. simpl in IH.
    destruct retained as [|r rs]; [simpl; lia|].
    specialize (IH ltac:(done)). lia.
  - destruct (walk older remaining) as [retained skipped] eqn:Ew. simpl.
    specialize (IH remaining). by rewrite Ew in IH.
Qed.

Lemma walk_skipped_nonneg turns : ∀ remaining,
  0 ≤ snd (walk turns remaining).
Proof.
  induction turns as [|e older IH]; intros remaining; simpl; [done|].
  destruct (cost e <=? remaining).
  - specialize (IH (remaining - cost e)).
    by destruct (walk older (remaining - cost e)).
  - specialize (IH remaining). destruct (walk older remaining). simpl in *.
    lia.
Qed.

(** The retained turns are turns of the transcript, in their order. *)
Lemma walk_sublist turns : ∀ remaining,
  sublist (fst (walk turns remaining)) turns.
Proof.
  induction turns as [|e older IH]; intros remaining; simpl; [constructor|].
  destruct (cost e <=? remaining).
  - specialize (IH (remaining - cost e)).
    destruct (walk older (remaining - cost e)). by constructor.
  - specialize (IH remaining). destruct (walk older remaining).
    by constructor.
Qed.

(** The loop of the source does what the walk says: its [break] is never
    taken, since a turn that fits leaves a positive remainder. *)
Lemma filter_loop_walk truncate lines : ∀ entries remaining skipped,
  logs_errors_only
    (filter_loop lines truncate entries remaining skipped)
    (let '(retained, n) := walk (omap (entry_of truncate) lines) remaining in
     (entries ++ retained, remaining - total_cost retained, skipped + n)).
Proof.
  induction lines as [|line lines IH]; intros entries remaining skipped.
  - simpl. rewrite app_nil_r, Z.sub_0_r, Z.add_0_r. apply logs_ret.
  - simpl filter_loop.
    eapply logs_bind; [apply extract_valuable_content_logs|].
    simpl omap. destruct (entry_of truncate line) as [e|]; [|apply IH].
    simpl walk. fold (cost e). pose proof (cost_ge_2 e) as Hc.
    destruct (Z.ltb_spec remaining (cost e)) as [Hbig|Hfit].
    + destruct (Z.leb_spec (cost e) remaining) as [?|_]; [lia|].
      specialize (IH entries remaining (skipped + 1)).
      destruct (walk _ remaining) as [retained n].
      by replace (skipped + (n + 1)) with (skipped + 1 + n) by lia.
    + destruct (Z.leb_spec (cost e) remaining) as [_|?]; [|lia].
      destruct (Z.leb_spec remaining 0) as [?|_]; [lia|].
      specialize (IH (entries ++ [e]) (remaining - cost e) skipped).
      destruct (walk _ (remaining - cost e)) as [retained n].
      simpl total_cost. rewrite <- app_assoc in IH. simpl in IH.
      by replace (remaining - (cost e + total_cost retained))
        with (remaining - cost e - total_cost retained) by lia.
Qed.

Lemma sublist_rev {A} (l k : list A) : sublist l k → sublist (rev l) (rev k).
Proof.
  induction 1 as [|x l k _ IH|x l k _ IH]; simpl.
  - constructor.
  - by apply sublist_app.
  - by apply sublist_inserts_r.
Qed.

Lemma omap_rev {A B} (g : A → option B) (l : list A) :
  omap g (rev l) = rev (omap g l).
Proof.
  induction l as [|x l IH]; simpl; [done|].
  rewrite omap_app, IH. simpl. destruct (g x); simpl; [done|].
  by rewrite app_nil_r.
Qed.

Lemma omap_all_None {A B} (g : A → option B) (l : list A) :
  (∀ x, In x l → g x = None) → omap g l = [].
Proof.
  induction l as [|x l IH]; intros Hall; simpl; [done|].
  rewrite (Hall x) by (by left). apply IH. intros y Hy. apply Hall.
  by right.
Qed.

(** The lines of a file, first line first, as the reader decodes them. *)
Definition lines_in_order (f : list byte) : list string :=
  map decode_line (List.filter PyBytes.truthy (PyBytes.split_nl f)).

Lemma turns_chronological f truncate :
  rev (turns_newest_first f truncate)
  = omap (entry_of truncate) (lines_in_order f).
Proof.
  unfold turns_newest_first, naive_reverse_lines, lines_in_order.
  by rewrite omap_rev, rev_involutive.
Qed.

(** What the extractor returns for the bytes of a transcript. *)
Definition summary (f : list byte) (char_budget : Z) (truncate : bool)
    : string * Z * Z :=
  let '(retained, n) :=
    walk (turns_newest_first f truncate) (char_budget - header_reserve) in
  match rev retained with
  | [] => ("No conversational content found in transcript.", 0, 0)
  | entries =>
      (render entries,
       char_budget - (char_budget - header_reserve - total_cost retained), n)
  end.

(** What it returns in a world. *)
Definition extraction (w : World) (transcript_path : option string)
    (char_budget : Z) (truncate : bool) : string * Z * Z :=
  match transcript_path ≫= (λ p, files w !! p) with
  | None => ("No transcript found.", 0, 0)
  | Some f => summary f char_budget truncate
  end.

Lemma filter_session_from_end_logs transcript_path char_budget truncate w :
  ∃ fs, filter_session_from_end transcript_path char_budget truncate w
        = Returns (extraction w transcript_path char_budget truncate)
                  (set_files fs w)
        ∧ ∀ p, p ≠ logs_file "error.log" → fs !! p = files w !! p.
Proof.
  unfold filter_session_from_end, extraction.
  rewrite (bind_Returns get _ w w w eq_refl).
  destruct (transcript_path ≫= _) as [f|].
  - unfold reverse_readline.
    rewrite (ReverseReaderFacts.reverse_readline_fuel_spec f 8192 (length f))
      by (done || lia).
    destruct (filter_loop_walk truncate (naive_reverse_lines f) []
                (char_budget - header_reserve) 0 w) as (fs & Hloop & Hfs).
    exists fs. split; [|done].
    rewrite (bind_Returns _ _ _ _ _ Hloop). unfold summary.
    fold (turns_newest_first f truncate).
    destruct (walk _ _) as [retained n].
    change ([] ++ retained) with retained. rewrite Z.add_0_l.
    by destruct (rev retained).
  - exists (files w). by rewrite set_files_id.
Qed.

(** C1. With a budget [B] of at least zero characters the extractor
    returns, and never uses more than [B].  It walks the turns from the
    newest to the oldest against a budget of [B] less the header reserve of
    100; a turn that fits is retained and costs the length of its formatted
    text plus 2; a turn that does not fit is skipped and counted, and the
    walk goes on with the older turns.  When a turn is retained the result
    is the retained turns in chronological order, a subsequence of the
    turns of the file, [used] is the reserve plus their costs, and
    [skipped] counts the turns that did not fit. *)
Theorem filter_session_from_end_budget (w : World) (p : string)
    (f : list byte) (B : Z) (truncate : bool) :
  0 ≤ B →
  files w !! p = Some f →
  let turns := turns_newest_first f truncate in
  let retained := fst (walk turns (B - header_reserve)) in
  ∃ content used skipped w',
    filter_session_from_end (Some p) B truncate w
    = Returns (content, used, skipped) w'
    ∧ used ≤ B
    ∧ (retained = [] →
       (content, used, skipped)
       = ("No conversational content found in transcript.", 0, 0))
    ∧ (retained ≠ [] →
       content = render (rev retained)
       ∧ used = header_reserve + total_cost retained
       ∧ skipped = snd (walk turns (B - header_reserve)))
    ∧ sublist (rev retained) (omap (entry_of truncate) (lines_in_order f))
    ∧ (∀ e older remaining, remaining < cost e →
         walk (e :: older) remaining
         = (fst (walk older remaining), snd (walk older remaining) + 1))
    ∧ (∀ e older remaining, cost e ≤ remaining →
         walk (e :: older) remaining
         = (e :: fst (walk older (remaining - cost e)),
            snd (walk older (remaining - cost e)))).
Proof.
  intros HB Hf turns retained.
  destruct (filter_session_from_end_logs (Some p) B truncate w)
    as (fs & Hrun & _).
  unfold extraction in Hrun. simpl in Hrun. rewrite Hf in Hrun.
  unfold summary in Hrun. fold turns in Hrun.
  pose proof (walk_fits turns (B - header_reserve)) as Hfits.
  pose proof (walk_sublist turns (B - header_reserve)) as Hsub.
  subst retained.
  destruct (walk turns (B - header_reserve)) as [r n] eqn:Ew.
  cbn [fst snd] in *.
  assert (Hwalk : (∀ e older remaining, remaining < cost e →
             walk (e :: older) remaining
             = (fst (walk older remaining), snd (walk older remaining) + 1))
          ∧ (∀ e older remaining, cost e ≤ remaining →
             walk (e :: older) remaining
             = (e :: fst (walk older (remaining - cost e)),
                snd (walk older (remaining - cost e))))).
  { split; intros e older remaining Hc; simpl.
    - destruct (Z.leb_spec (cost e) remaining); [lia|].
      by destruct (walk older remaining).
    - destruct (Z.leb_spec (cost e) remaining); [|lia].
      by destruct (walk older (remaining - cost e)). }
  assert (Hchron : sublist (rev r)
                     (omap (entry_of truncate) (lines_in_order f))).
  { rewrite <- turns_chronological. by apply sublist_rev. }
  destruct (rev r) as [|e es] eqn:Erev.
  - assert (r = []) as -> by (by apply (f_equal (@rev _)) in Erev;
                               rewrite rev_involutive in Erev).
    eexists _, _, _, _. split; [exact Hrun|].
    split; [done|]. split; [done|]. split; [done|]. split; [done|].
    exact Hwalk.
  - assert (r ≠ []) as Hne by (by intros ->).
    eexists _, _, _, _. split; [exact Hrun|].
    specialize (Hfits Hne). unfold header_reserve in *.
    split; [lia|]. split; [done|].
    split; [|split; [done|exact Hwalk]].
    intros _. split; [done|]. split; [lia|done].
Qed.

(** C8, as the code has it.  When no path is given or no file exists
    under it, the extractor returns the "no transcript" sentinel with zero
    usage.  When the file exists and none of its lines holds a turn that
    survives the filters - an empty file is such a file - it returns the
    "no conversational content" sentinel, with zero usage as well. *)
Theorem filter_session_from_end_sentinels (w : World)
    (transcript_path : option string) (B : Z) (truncate : bool) :
  (transcript_path ≫= (λ p, files w !! p) = None →
   filter_session_from_end transcript_path B truncate w
   = Returns ("No transcript found.", 0, 0) w)
  ∧ (∀ f, transcript_path ≫= (λ p, files w !! p) = Some f →
       (∀ line, In line (lines_in_order f) → entry_of truncate line = None) →
       ∃ w', filter_session_from_end transcript_path B truncate w
             = Returns ("No conversational content found in transcript.",
                        0, 0) w').
Proof.
  destruct (filter_session_from_end_logs transcript_path B truncate w)
    as (fs & Hrun & _).
  unfold extraction in Hrun. split.
  - intros Hnone. unfold filter_session_from_end.
    rewrite (bind_Returns get _ w w w eq_refl). by rewrite Hnone.
  - intros f Hf Hnone. rewrite Hf in Hrun. eexists. rewrite Hrun.
    f_equal. unfold summary.
    assert (turns_newest_first f truncate = []) as ->.
    { pose proof (f_equal (@rev _) (turns_chronological f truncate)) as Hc.
      rewrite rev_involutive in Hc. rewrite Hc.
      by rewrite (omap_all_None _ _ Hnone). }
    done.
Qed.

(** C9. The result of an extraction is a function of the bytes under the
    transcript's path, the budget and the flag: two worlds that hold the
    same bytes there give the same result, whatever else they hold.  The
    extraction always returns; the only file it writes is the error log of
    the logger, so a transcript that is not that log is left as it was;
    the state files and the output are not touched. *)
Theorem filter_session_from_end_pure (w1 w2 : World)
    (transcript_path : option string) (B : Z) (truncate : bool) :
  transcript_path ≫= (λ p, files w1 !! p)
  = transcript_path ≫= (λ p, files w2 !! p) →
  ∃ result fs1 fs2,
    filter_session_from_end transcript_path B truncate w1
    = Returns result (set_files fs1 w1)
    ∧ filter_session_from_end transcript_path B truncate w2
      = Returns result (set_files fs2 w2)
    ∧ (∀ p, p ≠ logs_file "error.log" → fs1 !! p = files w1 !! p)
    ∧ (∀ p, p ≠ logs_file "error.log" → fs2 !! p = files w2 !! p).
Proof.
  intros Hsame.
  destruct (filter_session_from_end_logs transcript_path B truncate w1)
    as (fs1 & Hrun1 & Hfs1).
  destruct (filter_session_from_end_logs transcript_path B truncate w2)
    as (fs2 & Hrun2 & Hfs2).
  exists (extraction w1 transcript_path B truncate), fs1, fs2.
  split; [done|]. split; [|done].
  rewrite Hrun2. f_equal. unfold extraction. by rewrite Hsame.
Qed.

End WithLib.
End ExtractorFacts.

(* ===================================================================== *)
(** * recover_context.py: the budget allocation across sessions *)
(* ===================================================================== *)

Module AllocationFacts.
Import RecoverContext IOFacts ExtractorFacts.

Section WithLib.
Context `{PyLib} `{Globals}.

Definition used_of (r : string * Z * Z) : Z := snd (fst r).

(** The extractor never reports a negative usage, nor one above a budget
    that is not negative. *)
Lemma extraction_used_bounds w transcript_path B truncate :
  0 ≤ B → 0 ≤ used_of (extraction w transcript_path B truncate) ≤ B.
Proof.
  intros HB. unfold extraction, used_of.
  destruct (transcript_path ≫= _) as [f|]; [|simpl; lia].
  unfold summary.
  pose proof (walk_fits (turns_newest_first f truncate) (B - header_reserve))
    as Hfits.
  destruct (walk _ _) as [r n]. simpl in Hfits.
  destruct (rev r) as [|e es] eqn:Erev; [simpl; lia|]. simpl.
  assert (r ≠ []) as Hne by (by intros ->).
  specialize (Hfits Hne). pose proof (total_cost_nonneg r).
  unfold header_reserve in *. lia.
Qed.

Lemma budget_limit_of_bounds remaining :
  (0 <= DECAY_FACTOR)%Q → (DECAY_FACTOR <= 1)%Q → 0 < remaining →
  0 ≤ budget_limit_of remaining ≤ remaining.
Proof.
  intros Hlo Hhi Hpos. unfold budget_limit_of.
  destruct (remaining <=? MIN_SESSION_BUDGET); [lia|].
  unfold py_int. destruct DECAY_FACTOR as [num den].
  unfold Qle in Hlo, Hhi. simpl in *.
  rewrite Z.quot_div_nonneg by nia. split.
  - apply Z.div_pos; nia.
  - apply Z.div_le_upper_bound; nia.
Qed.

(** Two worlds hold the same files, the logs of the logger apart. *)
Definition same_but_logs (w w' : World) : Prop :=
  ∀ p, p ≠ logs_file "error.log" → p ≠ logs_file "debug.log" →
       files w' !! p = files w !! p.

(** The results of an allocation that starts with [remaining] characters
    over [sessions], in the order of the allocation. *)
Fixpoint allocated (w : World) (remaining : Z)
    (sessions : list (string * string)) (rs : list session_result) : Prop :=
  match rs, sessions with
  | [], [] => True
  | [], _ :: _ => remaining ≤ 0
  | _ :: _, [] => False
  | r :: rest, (sid, transcript) :: sessions' =>
      0 < remaining
      ∧ r_sid r = sid
      ∧ r_budget_limit r
        = (if remaining <=? MIN_SESSION_BUDGET then remaining
           else py_int (inject_Z remaining * DECAY_FACTOR))
      ∧ (∃ wi, same_but_logs w wi
               ∧ (r_content r, r_used r, r_skipped r)
                 = extraction wi (Some transcript) (r_budget_limit r) true)
      ∧ 0 ≤ r_used r ≤ r_budget_limit r
      ∧ r_remaining_after r = remaining - r_used r
      ∧ allocated w (remaining - r_used r) sessions' rest
  end.

Definition sum_used (rs : list session_result) : Z :=
  fold_right (λ r acc, r_used r + acc) 0 rs.

Lemma sum_used_rev rs : sum_used (rev rs) = sum_used rs.
Proof.
  induction rs as [|r rs IH]; simpl; [done|].
  assert (Happ : ∀ a b, sum_used (a ++ b) = sum_used a + sum_used b).
  { intros a b. induction a as [|x a IHa]; simpl; lia. }
  rewrite Happ, IH. simpl. lia.
Qed.

Lemma allocated_sum w sessions : ∀ remaining rs,
  (0 <= DECAY_FACTOR)%Q → (DECAY_FACTOR <= 1)%Q →
  allocated w remaining sessions rs →
  0 ≤ sum_used rs ∧ (rs ≠ [] → sum_used rs ≤ remaining).
Proof.
  induction sessions as [|[sid t] sessions IH]; intros remaining rs Hlo Hhi;
    destruct rs as [|r rs]; simpl; try done.
  intros (Hpos & _ & Hlim & _ & Hused & _ & Hrest).
  pose proof (budget_limit_of_bounds remaining Hlo Hhi Hpos) as Hb.
  unfold budget_limit_of in Hb. rewrite <- Hlim in Hb.
  destruct (IH _ _ Hlo Hhi Hrest) as [Hnn Hle].
  split; [lia|]. intros _. destruct rs as [|r' rs]; [simpl; lia|].
  specialize (Hle ltac:(done)). lia.
Qed.

Lemma allocated_sids w sessions : ∀ remaining rs,
  allocated w remaining sessions rs →
  map r_sid rs = firstn (length rs) (map fst sessions).
Proof.
  induction sessions as [|[sid t] sessions IH]; intros remaining rs;
    destruct rs as [|r rs]; simpl; try done.
  intros (_ & -> & _ & _ & _ & _ & Hrest). f_equal. by eapply IH.
Qed.

Lemma same_but_logs_refl w : same_but_logs w w.
Proof. by intros p _ _. Qed.

Lemma allocated_same w w0 sessions : ∀ remaining rs,
  same_but_logs w w0 →
  allocated w0 remaining sessions rs → allocated w remaining sessions rs.
Proof.
  induction sessions as [|[sid t] sessions IH]; intros remaining rs Hs;
    destruct rs as [|r rs]; simpl; try done.
  intros (Hpos & Hsid & Hlim & (wi & Hwi & Hex) & Hused & Hafter & Hrest).
  do 3 (split; [done|]). split; [|by auto].
  exists wi. split; [|done]. intros p Hp Hp'.
  rewrite Hwi by done. by apply Hs.
Qed.

(** The loop returns, and its results are an allocation. *)
Lemma allocation_loop_spec sessions : ∀ remaining acc w,
  (0 <= DECAY_FACTOR)%Q → (DECAY_FACTOR <= 1)%Q →
  ∃ rs fs,
    allocation_loop sessions remaining acc w
    = Returns (acc ++ rs) (set_files fs w)
    ∧ (∀ p, p ≠ logs_file "error.log" → fs !! p = files w !! p)
    ∧ allocated w remaining sessions rs.
Proof.
  induction sessions as [|[sid transcript] sessions IH];
    intros remaining acc w Hlo Hhi.
  - exists [], (files w). simpl. rewrite app_nil_r, set_files_id. done.
  - simpl allocation_loop.
    destruct (Z.leb_spec remaining 0) as [Hle|Hpos].
    + exists [], (files w). rewrite app_nil_r, set_files_id. done.
    + destruct (filter_session_from_end_logs (Some transcript)
                  (budget_limit_of remaining) true w) as (fs & Hrun & Hfs).
      rewrite (bind_Returns _ _ _ _ _ Hrun).
      pose proof (budget_limit_of_bounds remaining Hlo Hhi Hpos) as Hb.
      pose proof (extraction_used_bounds w (Some transcript)
                    (budget_limit_of remaining) true (proj1 Hb)) as Hu.
      destruct (extraction w (Some transcript) (budget_limit_of remaining)
                  true) as [[content used] skipped] eqn:Eex.
      unfold used_of in Hu. simpl in Hu.
      destruct (IH (remaining - used)
                  (acc ++ [mkResult sid content used
                             (budget_limit_of remaining) skipped
                             (remaining - used)])
                  (set_files fs w) Hlo Hhi) as (rs & fs' & Hloop & Hfs' & Hal).
      eexists (_ :: rs), fs'. split; [|split].
      * cbv beta iota. rewrite Hloop. by rewrite <- app_assoc.
      * intros p Hp. rewrite Hfs' by done. simpl. by apply Hfs.
      * simpl. split; [done|]. split; [done|]. split; [done|].
        split.
        { exists w. split; [apply same_but_logs_refl|]. by rewrite Eex. }
        split; [done|]. split; [done|].
        eapply allocated_same; [|exact Hal].
        intros p Hp _. simpl. by apply Hfs.
Qed.

(** The parts the display loop appends, session after session. *)
Fixpoint displayed (i total : Z) (results : list session_result)
    : list string :=
  match results with
  | [] => []
  | r :: rest =>
      ["--- Session " +:+ str_of_Z (i + 1) +:+ "/" +:+ str_of_Z total
       +:+ ": " +:+ PyStr.slice_to (r_sid r) 8 +:+ "... ---";
       r_content r; budget_line r; ""]
      ++ displayed (i + 1) total rest
  end.

Lemma display_loop_displayed total results : ∀ i w,
  ∃ fs, display_loop i total results w
        = Returns (displayed i total results) (set_files fs w).
Proof.
  induction results as [|r rest IH]; intros i w.
  - exists (files w). simpl. by rewrite set_files_id.
  - simpl display_loop.
    destruct (writes_logger_verbose ("dual_session_" +:+ str_of_Z (i + 1))
                (r_content r +:+ PyStr.nl +:+ PyStr.nl +:+ budget_line r) w)
      as ([] & fs & Hlog).
    rewrite (bind_Returns _ _ _ _ _ Hlog).
    destruct (IH (i + 1) (set_files fs w)) as (fs' & Hrest).
    rewrite (bind_Returns _ _ _ _ _ Hrest). by exists fs'.
Qed.

(** The order in which the sessions are given their budget: newest first,
    the current session left out when it is known. *)
Definition allocation_order (session_transcripts : list (string * string))
    (current_session_id : string) : list (string * string) :=
  if PyStr.truthy current_session_id then
    List.filter (λ st, negb (String.eqb (fst st) current_session_id))
                (rev session_transcripts)
  else rev session_transcripts.

(** C2. With a total budget of at least zero and a decay factor between
    0 and 1, the session block of the dual-source recovery returns.  The
    sessions are given their budget newest first, the current session left
    out; a session is processed only while the remaining budget is
    positive, with [budget_limit] the remaining budget times the decay
    factor (truncated to an integer), or all of it when it is at most
    [min_session_budget]; what the extraction of that session reports as
    used, never more than its limit, is what is taken off the remaining
    budget.  The used amounts add up to at most the total budget, and the
    results are displayed in the reverse of the allocation order. *)
Theorem dual_source_sessions_allocation
    (session_transcripts : list (string * string))
    (current_session_id : string) (w : World) :
  0 ≤ DEFAULT_CHAR_BUDGET →
  (0 <= DECAY_FACTOR)%Q → (DECAY_FACTOR <= 1)%Q →
  let order := allocation_order session_transcripts current_session_id in
  ∃ results parts w',
    dual_source_sessions session_transcripts current_session_id w
    = Returns (results, parts) w'
    ∧ allocated w DEFAULT_CHAR_BUDGET order (rev results)
    ∧ sum_used results ≤ DEFAULT_CHAR_BUDGET
    ∧ (current_session_id ≠ "" →
       ∀ r, In r results → r_sid r ≠ current_session_id)
    ∧ map r_sid results = rev (firstn (length results) (map fst order))
    ∧ parts = displayed 0 (Z.of_nat (length results)) results.
Proof.
  intros HB Hlo Hhi order. unfold dual_source_sessions.
  assert (Hfirst : ∃ fs,
    (if PyStr.truthy current_session_id then
       logger_debug "skip_current_session"
         ("Skipped current session: "
          +:+ PyStr.slice_to current_session_id 8 +:+ "...") ;;
       mret (List.filter
               (λ st, negb (String.eqb (fst st) current_session_id))
               (rev session_transcripts))
     else mret (rev session_transcripts)) w
    = Returns order (set_files fs w)
    ∧ ∀ p, p ≠ logs_file "debug.log" → fs !! p = files w !! p).
  { unfold order, allocation_order.
    destruct (PyStr.truthy current_session_id).
    - unfold logger_debug. destruct (logger_level <? 2).
      + exists (files w). by rewrite set_files_id.
      + eexists. split; [reflexivity|]. intros p Hp.
        by rewrite lookup_insert_ne.
    - exists (files w). by rewrite set_files_id. }
  destruct Hfirst as (fs0 & Hfirst & Hfs0).
  rewrite (bind_Returns _ _ _ _ _ Hfirst).
  destruct (allocation_loop_spec order DEFAULT_CHAR_BUDGET [] (set_files fs0 w)
              Hlo Hhi) as (rs & fs1 & Hloop & Hfs1 & Hal).
  rewrite (bind_Returns _ _ _ _ _ Hloop). simpl app.
  destruct (display_loop_displayed (Z.of_nat (length (rev rs))) (rev rs) 0
              (set_files fs1 (set_files fs0 w))) as (fs2 & Hdisp).
  rewrite (bind_Returns _ _ _ _ _ Hdisp).
  assert (Hal' : allocated w DEFAULT_CHAR_BUDGET order rs).
  { eapply allocated_same; [|exact Hal]. intros p _ Hp. simpl.
    by apply Hfs0. }
  pose proof (allocated_sids _ _ _ _ Hal') as Hsids.
  eexists _, _, _. split; [reflexivity|].
  rewrite rev_involutive. split; [done|].
  split.
  { rewrite sum_used_rev.
    destruct (allocated_sum _ _ _ _ Hlo Hhi Hal') as [Hnn Hle].
    destruct rs as [|r rs]; [simpl; lia|]. by apply Hle. }
  split.
  { intros Hcur r Hr Heq. apply in_rev in Hr.
    assert (Hin : In (r_sid r) (map fst order)).
    { assert (Hin' : In (r_sid r) (map r_sid rs)) by (by apply in_map).
      rewrite Hsids in Hin'.
      apply list_elem_of_In in Hin'. apply list_elem_of_In.
      apply elem_of_take in Hin' as (i & Hi & _).
      by eapply list_elem_of_lookup_2. }
    apply in_map_iff in Hin as ([sid t] & Hsid & Hin). simpl in Hsid.
    unfold order, allocation_order in Hin.
    destruct (PyStr.truthy current_session_id) eqn:Et.
    - apply filter_In in Hin as [_ Hne]. simpl in Hne.
      rewrite Hsid, Heq, String.eqb_refl in Hne. done.
    - by destruct current_session_id. }
  split; [|done].
  rewrite map_rev, Hsids, length_rev. done.
Qed.

End WithLib.
End AllocationFacts.

(* ===================================================================== *)
(** * The theorems at concrete inputs *)
(* ===================================================================== *)

Module Examples.
Import Demo RecoverContext FocusCore FocusHook Checkpoint Constraints
  FocusHookMain.

(** A transcript of three turns and a snapshot line, with one CRLF and
    one empty line. *)
Definition demo_transcript : list byte :=
  bytes_of line_user_hello ++ [x0a]
  ++ bytes_of line_assistant_long ++ [x0d; x0a]
  ++ bytes_of line_snapshot ++ [x0a; x0a]
  ++ bytes_of line_user_bye ++ [x0a].

Definition demo_world : World :=
  set_files {[ "t.jsonl" := demo_transcript ]} empty_world.

(** The same transcript beside other files. *)
Definition other_world : World :=
  set_files {[ "t.jsonl" := demo_transcript;
               "notes.md" := bytes_of "notes" ]}
    (set_stdout [OutText "earlier output"] empty_world).

Lemma reverse_readline_refines_naive_witness :
  reverse_readline demo_transcript 7
  = Some (naive_reverse_lines demo_transcript)
  ∧ ∀ fuel : nat, (length demo_transcript ≤ fuel)%nat →
      reverse_readline_fuel fuel demo_transcript 7
      = Some (naive_reverse_lines demo_transcript).
Proof.
  apply (ReverseReaderFacts.reverse_readline_refines_naive demo_transcript 7).
  lia.
Defined.

(** With 150 characters the long answer does not fit and is skipped; the
    older, shorter turn before it is retained. *)
Example extraction_skips_large_turn :
  ∃ w', filter_session_from_end (Some "t.jsonl") 150 true demo_world
        = Returns
            (PyStr.join PyStr.nl
               ["=== SESSION RECOVERY (2025-01-01 10:00 - 10:02) ==="; "";
                "[10:00] USER: hello"; ""; "[10:02] USER: bye"; ""],
             140, 1) w'.
Proof. eexists. vm_compute. reflexivity. Qed.

Lemma filter_session_from_end_budget_witness :
  ∃ content used skipped w',
    filter_session_from_end (Some "t.jsonl") 150 true demo_world
    = Returns (content, used, skipped) w'
    ∧ used ≤ 150.
Proof.
  destruct (ExtractorFacts.filter_session_from_end_budget demo_world
              "t.jsonl" demo_transcript 150 true)
    as (content & used & skipped & w' & Hrun & Hle & _);
    [lia|reflexivity|].
  by exists content, used, skipped, w'.
Defined.

Definition demo_sessions : list (string * string) :=
  [("s1", "t.jsonl"); ("s2", "t.jsonl"); ("s3", "t.jsonl")].

Lemma dual_source_sessions_allocation_witness :
  ∃ results parts w',
    dual_source_sessions demo_sessions "s3" demo_world
    = Returns (results, parts) w'
    ∧ AllocationFacts.sum_used results ≤ 50000
    ∧ map r_sid results
      = rev (firstn (length results) ["s2"; "s1"]).
Proof.
  destruct (AllocationFacts.dual_source_sessions_allocation demo_sessions
              "s3" demo_world)
    as (results & parts & w' & Hrun & _ & Hsum & _ & Horder & _);
    [done|done|done|].
  by exists results, parts, w'.
Defined.

(** fail, fail, success, fail on one key. *)
Definition write_a : option tool_input :=
  Some (mkInput (Some "/a.py") None None None None).
Definition failing : post_event :=
  mkEvent (Some "Write") write_a (RespDict (Some "Error: disk full") None).
Definition succeeding : post_event :=
  mkEvent (Some "Write") write_a (RespDict None (Some "ok")).

Lemma strike_counter_trailing_run_witness :
  ∃ msgs w',
    run_strikes [failing; failing; succeeding; failing] empty_world
    = Returns msgs w'
    ∧ persisted_count "Write:/a.py" w' = Some 1.
Proof.
  destruct (StrikeFacts.strike_counter_trailing_run "Write:/a.py"
              [failing; failing; succeeding; failing] empty_world)
    as (msgs & w' & Hrun & Hcount & _); [done|reflexivity|].
  by exists msgs, w'.
Defined.

(** Three records of session abc, two of the current session xyz, and a
    line that is not JSON. *)
Definition op_of (sid : string) : operation :=
  mkOp "2025-01-01T10:00:00" "PostToolUse"
       (Some (mkIds (Some sid) None None (Some "Edit"))).
Definition demo_log : list (option operation) :=
  [Some (op_of "abc"); Some (op_of "xyz"); Some (op_of "abc"); None;
   Some (op_of "xyz"); Some (op_of "abc")].
Definition log_world : World :=
  set_operations_file (Some demo_log) empty_world.

Lemma remove_processed_sessions_prunes_witness :
  ∃ c w',
    remove_processed_sessions ["abc"] false WriteOk log_world = Returns c w'
    ∧ original c = removed c + remaining c
    ∧ operations_file w' = Some [Some (op_of "xyz"); Some (op_of "xyz")].
Proof.
  destruct (PruneFacts.remove_processed_sessions_prunes ["abc"] false
              WriteOk log_world demo_log eq_refl)
    as (c & w' & Hrun & Hsum & Horig & Hrem & _ & _ & _ & _ & Hwritten).
  exists c, w'. split; [done|]. split; [done|].
  apply Hwritten; [done| |done].
  assert (H5 : original c = 5) by exact Horig.
  assert (H2 : remaining c = 2) by exact Hrem. lia.
Defined.

(** A path rule whose configured message is empty, with action block. *)
Definition silent_path_config : constraints_config :=
  mkConstraints (Some true)
    {[ "no_hardcoded_path" :=
         mkRule (Some true) None None None None None None None
           (Some [mkPathRule (Some [".py"]) (Some "C:/Users") (Some "")
                    (Some "block")]) ]}.
Definition path_write : stdin :=
  mkStdin (Some "Write")
    (Some (mkInput (Some "src/a.py") None None None
             (Some "root = 'C:/Users/me'"))).

(** C7. Two invocations at which the first failing enabled rule has
    action [block] and the hook neither prints a deny decision nor leaves
    with status 1.  In the first, a [no_hardcoded_path] rule whose
    configured message is empty fails on a [Write]: [check_constraints]
    returns not allowed with action [block], and the hook, which acts only
    on a message that is not empty, returns having printed nothing.  In the
    second, [no_tabs] with action [block] fails on an edit of a Python file
    that holds a tab while no focus session is active: the hook returns
    before the constraint checks and prints nothing, although the same
    invocation with an active session is denied with status 1. *)
Theorem block_rule_is_not_enforced :
  let tab_edit := ConstraintFacts.tab_edit "src/a.py" in
  let no_tabs_config := ConstraintFacts.no_tabs_config in
  (first_violation
     (rule_outcomes "Write"
        (default empty_input (stdin_tool_input path_write))
        silent_path_config)
   = Some (mkViolation "no_hardcoded_path" (Some "") (Some "block"))
   ∧ (∃ w', check_constraints "Write"
              (default empty_input (stdin_tool_input path_write))
              silent_path_config empty_world
            = Returns (false, Some "", Some "block") w')
   ∧ ∃ w', main_pre true (Some path_write) None silent_path_config (mret tt)
             empty_world = Returns tt w'
           ∧ stdout w' = [])
  ∧ (first_violation
       (rule_outcomes "Edit"
          (default empty_input (stdin_tool_input tab_edit)) no_tabs_config)
     = Some (mkViolation "no_tabs"
               (Some "Tab characters detected, use spaces for indentation")
               (Some "block"))
     ∧ (∃ w', main_pre false (Some tab_edit) None no_tabs_config (mret tt)
                empty_world = Returns tt w'
              ∧ stdout w' = [])
     ∧ ∃ w', main_pre true (Some tab_edit) None no_tabs_config (mret tt)
               empty_world = Exits 1 w'
             ∧ stdout w'
               = [OutPermission "PreToolUse" "deny"
                    ("[BLOCK] Tab characters detected, "
                     +:+ "use spaces for indentation")]).
Proof.
  cbv zeta. split; (split; [reflexivity|]).
  - split; eexists; vm_compute; [reflexivity|]. split; reflexivity.
  - split; eexists; vm_compute; split; reflexivity.
Qed.

Definition empty_file_world : World :=
  set_files {[ "t.jsonl" := [] ]} empty_world.

Lemma filter_session_from_end_sentinels_witness :
  filter_session_from_end (Some "missing.jsonl") 1000 true demo_world
  = Returns ("No transcript found.", 0, 0) demo_world
  ∧ ∃ w', filter_session_from_end (Some "t.jsonl") 1000 true empty_file_world
          = Returns ("No conversational content found in transcript.", 0, 0)
                    w'.
Proof.
  split.
  - by apply (proj1 (ExtractorFacts.filter_session_from_end_sentinels
                       demo_world (Some "missing.jsonl") 1000 true)).
  - apply (proj2 (ExtractorFacts.filter_session_from_end_sentinels
                    empty_file_world (Some "t.jsonl") 1000 true) []);
      [reflexivity|]. intros line [].
Defined.

(** C8 as stated fails for a transcript that exists and is empty: the
    result is not the sentinel of a missing transcript. *)
Lemma empty_transcript_is_not_missing :
  ∃ sentinel w',
    filter_session_from_end (Some "t.jsonl") 1000 true empty_file_world
    = Returns (sentinel, 0, 0) w'
    ∧ sentinel = "No conversational content found in transcript."
    ∧ sentinel ≠ "No transcript found.".
Proof. eexists _, _. split; [vm_compute; reflexivity|]. by split. Qed.

Lemma filter_session_from_end_pure_witness :
  ∃ result fs1 fs2,
    filter_session_from_end (Some "t.jsonl") 150 true demo_world
    = Returns result (set_files fs1 demo_world)
    ∧ filter_session_from_end (Some "t.jsonl") 150 true other_world
      = Returns result (set_files fs2 other_world)
    ∧ fs1 !! "t.jsonl" = Some demo_transcript
    ∧ fs2 !! "t.jsonl" = Some demo_transcript.
Proof.
  destruct (ExtractorFacts.filter_session_from_end_pure demo_world
              other_world (Some "t.jsonl") 150 true eq_refl)
    as (result & fs1 & fs2 & Hrun1 & Hrun2 & Hfs1 & Hfs2).
  exists result, fs1, fs2. split; [done|]. split; [done|].
  split; [by rewrite Hfs1|by rewrite Hfs2].
Defined.

End Examples.

(* ===================================================================== *)
(** * Further facts: strings *)
(* ===================================================================== *)

Module StringFacts.

Lemma substring_length_le (s : string) : ∀ n m,
  (String.length (String.substring n m s) ≤ m)%nat.
Proof.
  induction s as [|c s IH]; intros [|n] [|m]; simpl; try lia.
  - specialize (IH 0%nat m). lia.
  - apply (IH n 0%nat).
  - apply (IH n (S m)).
Qed.

Lemma append_length (s t : string) :
  String.length (s +:+ t) = (String.length s + String.length t)%nat.
Proof. induction s as [|c s IH]; simpl; [done|]. by rewrite IH. Qed.

(** [s[:n]] has at most [n] characters when [n] is not negative. *)
Lemma slice_to_len (s : string) (n : Z) :
  0 ≤ n → PyStr.len (PyStr.slice_to s n) ≤ n.
Proof.
  intros Hn. unfold PyStr.slice_to, PyStr.len.
  destruct (Z.leb_spec 0 n); [|lia].
  pose proof (substring_length_le s 0 (Z.to_nat n)). lia.
Qed.

Lemma slice_len (s : string) (lo hi : Z) :
  lo ≤ hi → PyStr.len (PyStr.slice s lo hi) ≤ hi - lo.
Proof.
  intros Hn. unfold PyStr.slice, PyStr.len.
  pose proof (substring_length_le s (Z.to_nat lo) (Z.to_nat (hi - lo))). lia.
Qed.

(** The first character is no white space, nor is the last. *)
Fixpoint solid (tag : string) : Prop :=
  match tag with
  | "" => False
  | String c "" => PyStr.is_space c = false
  | String c rest => solid rest
  end.

Definition starts_solid (tag : string) : Prop :=
  match tag with
  | "" => False
  | String c _ => PyStr.is_space c = false
  end.

Lemma prefix_nonempty (tag s : string) :
  tag ≠ "" → String.prefix tag s = true → s ≠ "".
Proof. destruct tag; [done|]. by destruct s. Qed.

Lemma contains_nonempty (tag s : string) :
  tag ≠ "" → PyStr.contains tag s = true → s ≠ "".
Proof.
  intros Ht. destruct s; [|done]. simpl. rewrite orb_false_r.
  by destruct tag.
Qed.

Lemma prefix_contains (tag s : string) :
  String.prefix tag s = true → PyStr.contains tag s = true.
Proof. intros H. destruct s; cbn [PyStr.contains]; by rewrite H. Qed.

Lemma solid_nonempty tag : solid tag → tag ≠ "".
Proof. by destruct tag. Qed.

Lemma prefix_rstrip (tag : string) : ∀ s,
  solid tag → String.prefix tag s = true →
  String.prefix tag (PyStr.rstrip s) = true.
Proof.
  induction tag as [|a tag IH]; intros s Hsolid Hp; [done|].
  destruct s as [|c s]; [done|]. simpl in Hp.
  destruct (Ascii.ascii_dec a c) as [->|Hne]; [|done].
  destruct tag as [|b tag].
  - simpl in Hsolid. simpl. destruct (PyStr.rstrip s).
    + rewrite Hsolid. simpl. by destruct (Ascii.ascii_dec c c).
    + simpl. by destruct (Ascii.ascii_dec c c).
  - specialize (IH s Hsolid Hp).
    assert (PyStr.rstrip s ≠ "") as Hne
      by (by apply (prefix_nonempty (String b tag))).
    simpl PyStr.rstrip. destruct (PyStr.rstrip s) as [|d r]; [done|].
    simpl. destruct (Ascii.ascii_dec c c); [|done]. exact IH.
Qed.

Lemma contains_rstrip (tag : string) : ∀ s,
  solid tag → PyStr.contains tag s = true →
  PyStr.contains tag (PyStr.rstrip s) = true.
Proof.
  intros s Hsolid. induction s as [|c s IH]; [done|].
  intros Hc. pose proof (solid_nonempty _ Hsolid) as Hne.
  change (PyStr.contains tag (String c s))
    with (String.prefix tag (String c s) || PyStr.contains tag s) in Hc.
  apply orb_true_iff in Hc as [Hp|Hc].
  - by apply prefix_contains, prefix_rstrip.
  - specialize (IH Hc).
    assert (PyStr.rstrip s ≠ "") as Hr
      by (by apply (contains_nonempty tag)).
    simpl PyStr.rstrip. destruct (PyStr.rstrip s) as [|d r]; [done|].
    change (PyStr.contains tag (String c (String d r)))
      with (String.prefix tag (String c (String d r))
            || PyStr.contains tag (String d r)).
    rewrite IH. apply orb_true_r.
Qed.

Lemma contains_lstrip (tag : string) : ∀ s,
  starts_solid tag → PyStr.contains tag s = true →
  PyStr.contains tag (PyStr.lstrip s) = true.
Proof.
  intros s Hsolid. induction s as [|c s IH]; [done|].
  intros Hc. simpl PyStr.lstrip. destruct (PyStr.is_space c) eqn:Ec; [|done].
  apply IH.
  change (PyStr.contains tag (String c s))
    with (String.prefix tag (String c s) || PyStr.contains tag s) in Hc.
  apply orb_true_iff in Hc as [Hp|Hc]; [|done].
  destruct tag as [|a tag]; [done|]. simpl in Hp, Hsolid.
  destruct (Ascii.ascii_dec a c) as [->|]; [congruence|done].
Qed.

(** An occurrence of a tag that neither starts nor ends with white space
    survives [strip]. *)
Lemma contains_strip (tag s : string) :
  starts_solid tag → solid tag → PyStr.contains tag s = true →
  PyStr.contains tag (PyStr.strip s) = true.
Proof.
  intros Hs Hsolid Hc. unfold PyStr.strip.
  by apply contains_rstrip, contains_lstrip.
Qed.

End StringFacts.

(* ===================================================================== *)
(** * Further facts: the reverse reader with a buffer that reads nothing *)
(* ===================================================================== *)

Module ReaderEdge.
Import RecoverContext.

Section WithLib.
Context `{PyLib} `{Globals}.

(** With a buffer size that is not positive, [remaining] never shrinks. *)
Lemma reverse_readline_loop_stuck (f : list byte) (buf_size : Z) :
  buf_size ≤ 0 →
  ∀ fuel remaining buffer,
    0 < remaining →
    reverse_readline_loop fuel f buf_size remaining buffer = None.
Proof.
  intros Hbuf. induction fuel as [|fuel IH]; intros remaining buffer Hrem;
    simpl; destruct (Z.ltb_spec 0 remaining); try lia; [done|].
  rewrite IH by lia. done.
Qed.


End WithLib.
End ReaderEdge.

(* ===================================================================== *)
(** * Further facts: what the extractor drops, bounds and keeps *)
(* ===================================================================== *)

Module ExtractorMore.
Import RecoverContext IOFacts ExtractorFacts StringFacts.

Section WithLib.
Context `{PyLib} `{Globals}.

(** A text that holds one of the command or system tags. *)
Definition tagged (text : string) : Prop :=
  ∃ tag, In tag NOISE_XML_TAGS ∧ PyStr.contains tag text = true.

Lemma noise_tags_solid tag :
  In tag NOISE_XML_TAGS → starts_solid tag ∧ solid tag.
Proof.
  unfold NOISE_XML_TAGS. simpl In.
  intros Hin. repeat destruct Hin as [<-|Hin]; try done.
Qed.

Lemma tagged_is_noise text : tagged text → _is_noise_content text = true.
Proof.
  intros (tag & Hin & Hc). unfold _is_noise_content.
  destruct (negb (PyStr.truthy text)); [done|].
  destruct (negb (PyStr.truthy (PyStr.strip text))); [done|].
  destruct (PyStr.startswith (PyStr.strip text) "<system"); [done|].
  destruct (noise_tags_solid tag Hin) as [Hs Hsolid].
  assert (existsb (λ tag, PyStr.contains tag (PyStr.strip text))
            NOISE_XML_TAGS = true) as ->; [|done].
  apply existsb_exists. exists tag. split; [done|].
  by apply contains_strip.
Qed.

Lemma user_texts_tagged (items : list content_item) :
  (∀ ty tx nm, In (ItemDict ty tx nm) items → ty = Some "text" →
     tagged (default "" tx)) →
  user_texts items = [].
Proof.
  induction items as [|item items IH]; intros Hall; [done|].
  unfold user_texts in *. cbn [omap list_omap].
  rewrite IH by (intros; eapply Hall; [right|]; eauto).
  destruct item as [ty tx nm|]; [|done].
  destruct (decide (ty = Some "text")) as [Hty|]; [|done].
  rewrite (tagged_is_noise (default "" tx))
    by (eapply Hall; [left|]; eauto).
  by rewrite andb_false_r.
Qed.


Lemma extract_assistant_bound ts content e :
  0 ≤ MAX_ENTRY_LENGTH →
  extract_assistant ts content true = Some e →
  e_type e = "CLAUDE"
  ∧ PyStr.len (e_content e) ≤ MAX_ENTRY_LENGTH + 3
  ∧ formatted e = format_time ts +:+ " CLAUDE: " +:+ e_content e.
Proof.
  intros Hmax. unfold extract_assistant.
  match goal with |- context [if ?b then None else _] => destruct b end;
    [done|].
  destruct (assistant_texts _) as [|t texts]; [done|].
  set (combined := strip_noise _).
  destruct (negb (PyStr.truthy combined)); [done|].
  intros [= <-]. cbn [e_type e_content formatted]. split; [done|].
  split; [|done]. cbn [andb].
  destruct (Z.ltb_spec MAX_ENTRY_LENGTH (PyStr.len combined)); [|lia].
  unfold PyStr.len at 1. rewrite append_length.
  pose proof (slice_to_len combined MAX_ENTRY_LENGTH Hmax) as Hs.
  unfold PyStr.len in Hs. simpl String.length. lia.
Qed.

Lemma extract_user_type ts content e :
  extract_user ts content = Some e → e_type e = "USER".
Proof.
  unfold extract_user.
  destruct (match content with None => _ | _ => _ end) as [c|]; [|done].
  destruct (_ || _); [done|]. by intros [= <-].
Qed.


(** Turns that all fit are all retained. *)
Lemma walk_all turns : ∀ remaining,
  total_cost turns ≤ remaining → walk turns remaining = (turns, 0).
Proof.
  induction turns as [|e older IH]; intros remaining Hfit; [done|].
  simpl in *. pose proof (total_cost_nonneg older).
  destruct (Z.leb_spec (cost e) remaining); [|lia].
  by rewrite IH by lia.
Qed.

(** Every turn is retained or counted as skipped. *)
Lemma walk_partition turns : ∀ remaining,
  Z.of_nat (length (fst (walk turns remaining))) + snd (walk turns remaining)
  = Z.of_nat (length turns).
Proof.
  induction turns as [|e older IH]; intros remaining; [done|].
  simpl walk. destruct (cost e <=? remaining).
  - specialize (IH (remaining - cost e)).
    destruct (walk older (remaining - cost e)). simpl in *. lia.
  - specialize (IH remaining).
    destruct (walk older remaining). simpl in *. lia.
Qed.



End WithLib.
End ExtractorMore.

(* ===================================================================== *)
(** * Further facts: strikes beyond the second, other keys, the snippet *)
(* ===================================================================== *)

Module StrikeMore.
Import FocusHook StateFileFacts StrikeFacts StringFacts.

Section WithLib.
Context `{PyLib} `{Globals}.




End WithLib.
End StrikeMore.

(* ===================================================================== *)
(** * Further facts: the message collector of focus_core *)
(* ===================================================================== *)

Module OutputFacts.
Import FocusCore IOFacts ConstraintFacts.

Section WithLib.
Context `{PyLib} `{Globals}.

(** Successive calls of [output_message], one for each
    (tag, message, hook event). *)
Definition collect (msgs : list (string * string * string)) : IO unit :=
  for_each msgs
    (λ m, output_message (fst (fst m)) (snd (fst m)) (snd m)).

Definition texts (msgs : list (string * string * string)) : list string :=
  map (λ m, snd (fst m)) msgs.

Lemma collect_spec msgs : ∀ w,
  ∃ w', collect msgs w = Returns tt w'
    ∧ stdout w' = stdout w
    ∧ pending_messages w' = pending_messages w ++ texts msgs
    ∧ current_hook_event w'
      = match last msgs with
        | Some m => Some (snd m)
        | None => current_hook_event w
        end.
Proof.
  induction msgs as [|m msgs IH]; intros w.
  - exists w. by rewrite app_nil_r.
  - destruct (output_message_pending (fst (fst m)) (snd (fst m)) (snd m) w)
      as (fs & Hout).
    destruct (IH (set_pending (pending_messages w ++ [snd (fst m)])
                    (Some (snd m)) (set_files fs w)))
      as (w' & Hrun & Hstd & Hpend & Hev).
    exists w'. unfold collect in *. cbn [for_each].
    change (bind ?m ?k) with (m ≫= k).
    rewrite (bind_Returns _ _ _ _ _ Hout). split; [done|].
    split; [exact Hstd|]. split.
    + rewrite Hpend. simpl. by rewrite <- app_assoc.
    + rewrite Hev. destruct msgs as [|m' msgs]; [reflexivity|].
      change (last (m :: m' :: msgs)) with (last (m' :: msgs)).
      destruct (last (m' :: msgs)) eqn:El; [done|].
      by apply last_None in El.
Qed.


(** What [output_error] prints for an event that is given. *)
Definition error_output (message event : string) (block : bool)
    : hook_output :=
  if String.eqb event "PreToolUse" then
    OutPermission event (if block then "deny" else "allow") message
  else if block then OutDecisionBlock message
  else OutContext event ("[ERROR] " +:+ message).


End WithLib.
End OutputFacts.

(* ===================================================================== *)
(** * Further facts: which tools the constraints look at *)
(* ===================================================================== *)

Module ConstraintScope.
Import FocusCore Constraints FocusHookMain IOFacts ConstraintFacts.

Section WithLib.
Context `{PyLib} `{Globals}.

Lemma outcomes_out_of_scope tool_name ti config :
  is_edit_write tool_name = false →
  String.eqb tool_name "Bash" = false →
  first_violation (rule_outcomes tool_name ti config) = None.
Proof.
  intros Hew Hbash. unfold rule_outcomes.
  assert (String.eqb tool_name "Write" = false) as Hwrite.
  { unfold is_edit_write in Hew. by apply orb_false_iff in Hew as [_ ?]. }
  rewrite Hew, Hbash, Hwrite. by rewrite !andb_false_r.
Qed.

Lemma outcomes_empty_edit ti config :
  PyStr.truthy (content_of "Edit" ti) = false →
  first_violation (rule_outcomes "Edit" ti config) = None.
Proof.
  intros Hc. unfold rule_outcomes. rewrite Hc.
  change (String.eqb "Edit" "Write") with false.
  change (String.eqb "Edit" "Bash") with false.
  by rewrite !andb_false_r.
Qed.


End WithLib.
End ConstraintScope.

(* ===================================================================== *)
(** * Further examples *)
(* ===================================================================== *)

Module MoreExamples.
Import Demo RecoverContext FocusCore FocusHook Checkpoint Constraints
  FocusHookMain.


(** A user turn that quotes a slash command. *)
Definition line_command : string :=
  q "{'type':'user','message':{'content':'ran <command-name>/clear</command-name> first'}}".

(** The library of the examples, reading that line as well. *)
Definition command_lib : PyLib := {|
  datetime := string;
  fromisoformat := demo_fromisoformat;
  strftime := demo_strftime;
  utf8_decode := String.string_of_list_byte;
  json_loads line :=
    if String.eqb line line_command then
      Some (mkLine (Some "user") None
              (Some (ContentStr
                       "ran <command-name>/clear</command-name> first")))
    else demo_json_loads line;
  json := list byte;
  empty_dict := bytes_of "{}";
  json_load bs := @json_load demo_lib bs;
  format_msg func_name msg := @format_msg demo_lib func_name msg;
  format_verbose content := bytes_of content;
  re_search pattern _ s := PyStr.contains pattern s;
  re_match pattern s := PyStr.startswith s pattern;
  re_sub pattern repl s := PyStr.replace pattern repl s
|}.


(** The configuration of the examples with entries cut at ten characters. *)
Definition short_globals : Globals := {|
  logger_level := 1;
  logger_rotate_lines := 1000;
  logger_logs_dir := ".claude/tmp/focus/logs";
  DEFAULT_CHAR_BUDGET := 50000;
  MAX_ENTRY_LENGTH := 10;
  DECAY_FACTOR := 1 # 2;
  MIN_SESSION_BUDGET := 1000;
  NOISE_PATTERNS := [];
  TOOLS_TO_FILTER := [];
  MAX_STRIKES := 5;
  ERROR_PATTERNS := ["error"; "failed"; "denied"]
|}.

Definition cut_answer : entry :=
  mkEntry (Some "2025-01-01T10:01:00") "CLAUDE" "a much lon..."
          "[10:01] CLAUDE: a much lon...".




(** Two failures of the write are on record. *)
Definition two_strikes_world : World :=
  set_failure_count_file
    (FileJson {[ "Write:/a.py" := mkStrike 2 "error: disk full" ]})
    empty_world.






End MoreExamples.

(* ===================================================================== *)
(** * Further facts: the sessions of the operation log *)
(* ===================================================================== *)

Module SessionFacts.
Import Checkpoint Sessions CheckpointSessions IOFacts PruneFacts.

(** The session id of a record when it counts as one ([if sid]). *)
Definition truthy_id (op : operation) : option string :=
  match op_session_id op with
  | Some sid => if PyStr.truthy sid then Some sid else None
  | None => None
  end.

Lemma truthy_id_Some op sid :
  truthy_id op = Some sid ↔ sid ≠ "" ∧ op_session_id op = Some sid.
Proof.
  unfold truthy_id. destruct (op_session_id op) as [s|].
  - destruct s; simpl.
    + split; [done|]. by intros [? [= <-]].
    + split; [by intros [= <-]|]. by intros [_ [= <-]].
  - split; [done|]. by intros [_ ?].
Qed.

Lemma session_ids_loop_step op rest seen ordered :
  session_ids_loop (op :: rest) seen ordered
  = match truthy_id op with
    | Some sid =>
        if bool_decide (sid ∈ seen) then session_ids_loop rest seen ordered
        else session_ids_loop rest ({[ sid ]} ∪ seen) (ordered ++ [sid])
    | None => session_ids_loop rest seen ordered
    end.
Proof.
  simpl. unfold truthy_id. destruct (op_session_id op) as [sid|]; [|done].
  destruct (PyStr.truthy sid); [|done]. simpl.
  by destruct (bool_decide (sid ∈ seen)).
Qed.

(** [seen] holds what [ordered] lists. *)
Definition in_step (seen : gset string) (ordered : list string) : Prop :=
  ∀ x, x ∈ seen ↔ x ∈ ordered.

Lemma in_step_add seen ordered sid :
  in_step seen ordered → in_step ({[ sid ]} ∪ seen) (ordered ++ [sid]).
Proof.
  intros Hin x. rewrite elem_of_union, elem_of_singleton, elem_of_app,
    list_elem_of_singleton, (Hin x). tauto.
Qed.

Lemma session_ids_loop_inv ops : ∀ seen ordered,
  in_step seen ordered → NoDup ordered →
  let r := session_ids_loop ops seen ordered in
  NoDup r ∧ ordered `prefix_of` r
  ∧ ∀ x, x ∈ r ↔ x ∈ ordered ∨ ∃ op, op ∈ ops ∧ truthy_id op = Some x.
Proof.
  induction ops as [|op ops IH]; intros seen ordered Hin Hnd.
  - simpl. split; [done|]. split; [done|]. intros x. split; [auto|].
    intros [?|(op & Hop & _)]; [done|]. by apply elem_of_nil in Hop.
  - cbv zeta. rewrite session_ids_loop_step.
    destruct (truthy_id op) as [sid|] eqn:Eid.
    + destruct (bool_decide_reflect (sid ∈ seen)) as [Hseen|Hnew].
      * destruct (IH seen ordered Hin Hnd) as (Hnd' & Hpre & Hmem).
        split; [done|]. split; [done|]. intros x. rewrite Hmem.
        split; intros [Hx|(op' & Hop' & Hx)]; auto.
        -- right. exists op'. split; [by right|done].
        -- apply elem_of_cons in Hop' as [->|Hop'].
           ++ left. apply Hin. congruence.
           ++ right. by exists op'.
      * destruct (IH ({[ sid ]} ∪ seen) (ordered ++ [sid]))
          as (Hnd' & Hpre & Hmem).
        { by apply in_step_add. }
        { apply NoDup_app. split; [done|]. split; [|apply NoDup_singleton].
          intros x Hx ->%list_elem_of_singleton. apply Hnew. by apply Hin. }
        split; [done|]. split.
        { etrans; [|exact Hpre]. by apply prefix_app_r. }
        intros x. rewrite Hmem, elem_of_app, list_elem_of_singleton.
        split.
        -- intros [[Hx| ->]|(op' & Hop' & Hx)]; auto.
           ++ right. exists op. split; [by left|done].
           ++ right. exists op'. split; [by right|done].
        -- intros [Hx|(op' & Hop' & Hx)]; auto.
           apply elem_of_cons in Hop' as [->|Hop'].
           ++ left. right. congruence.
           ++ right. by exists op'.
    + destruct (IH seen ordered Hin Hnd) as (Hnd' & Hpre & Hmem).
      split; [done|]. split; [done|]. intros x. rewrite Hmem.
      split; intros [Hx|(op' & Hop' & Hx)]; auto.
      * right. exists op'. split; [by right|done].
      * apply elem_of_cons in Hop' as [->|Hop']; [congruence|].
        right. by exists op'.
Qed.

Lemma session_ids_loop_app ops1 : ∀ ops2 seen ordered,
  in_step seen ordered →
  ∃ seen', in_step seen' (session_ids_loop ops1 seen ordered)
    ∧ session_ids_loop (ops1 ++ ops2) seen ordered
      = session_ids_loop ops2 seen' (session_ids_loop ops1 seen ordered).
Proof.
  induction ops1 as [|op ops1 IH]; intros ops2 seen ordered Hin.
  - by exists seen.
  - rewrite <- app_comm_cons, !session_ids_loop_step.
    destruct (truthy_id op) as [sid|]; [|by apply IH].
    destruct (bool_decide (sid ∈ seen)); [by apply IH|].
    apply IH. by apply in_step_add.
Qed.

Lemma in_step_empty : in_step ∅ [].
Proof. intros x. rewrite elem_of_empty, elem_of_nil. tauto. Qed.

Lemma all_ids_nodup operations :
  NoDup (get_all_session_ids_from_operations operations).
Proof.
  by destruct (session_ids_loop_inv operations ∅ [] in_step_empty
                 NoDup_nil_2) as (Hnd & _).
Qed.

Lemma all_ids_elem operations sid :
  sid ∈ get_all_session_ids_from_operations operations
  ↔ sid ≠ "" ∧ ∃ op, op ∈ operations ∧ op_session_id op = Some sid.
Proof.
  destruct (session_ids_loop_inv operations ∅ [] in_step_empty
              NoDup_nil_2) as (_ & _ & Hmem).
  unfold get_all_session_ids_from_operations. rewrite Hmem. split.
  - intros [Hx|(op & Hop & Hid)]; [by apply elem_of_nil in Hx|].
    apply truthy_id_Some in Hid as [? ?]. eauto.
  - intros (Hne & op & Hop & Hid). right. exists op. split; [done|].
    by apply truthy_id_Some.
Qed.

Lemma all_ids_prefix earlier later :
  get_all_session_ids_from_operations earlier
  `prefix_of` get_all_session_ids_from_operations (earlier ++ later).
Proof.
  unfold get_all_session_ids_from_operations.
  destruct (session_ids_loop_app earlier later ∅ [] in_step_empty)
    as (seen' & Hin' & ->).
  destruct (session_ids_loop_inv earlier ∅ [] in_step_empty
              NoDup_nil_2) as (Hnd1 & _ & _).
  by destruct (session_ids_loop_inv later seen' _ Hin' Hnd1)
    as (_ & Hpre & _).
Qed.


Lemma first_session_id_Some ops sid :
  first_session_id ops = Some sid ↔
  ∃ before op after,
    ops = before ++ op :: after ∧ truthy_id op = Some sid
    ∧ Forall (λ op', truthy_id op' = None) before.
Proof.
  induction ops as [|op ops IH].
  - split; [done|]. intros (before & op & after & Heq & _).
    by destruct before.
  - change (first_session_id (op :: ops))
      with (match op_session_id op with
            | Some s => if PyStr.truthy s then Some s
                        else first_session_id ops
            | None => first_session_id ops
            end).
    assert (Hskip : truthy_id op = None →
              (first_session_id ops = Some sid ↔
               ∃ before op' after,
                 op :: ops = before ++ op' :: after
                 ∧ truthy_id op' = Some sid
                 ∧ Forall (λ op', truthy_id op' = None) before)).
    { intros Hnone. rewrite IH. split.
      - intros (before & op' & after & -> & Hid & Hall).
        exists (op :: before), op', after. split; [done|]. split; [done|].
        by constructor.
      - intros (before & op' & after & Heq & Hid & Hall).
        destruct before as [|b before].
        + simpl in Heq. injection Heq as <- _. congruence.
        + simpl in Heq. injection Heq as <- ->.
          inversion Hall; subst. by exists before, op', after. }
    unfold truthy_id in Hskip at 1.
    destruct (op_session_id op) as [s|] eqn:Es; [|by apply Hskip].
    destruct (PyStr.truthy s) eqn:Et; [|by apply Hskip].
    split.
    + intros [= ->]. exists [], op, ops. split; [done|]. split; [|done].
      unfold truthy_id. by rewrite Es, Et.
    + intros (before & op' & after & Heq & Hid & Hall).
      destruct before as [|b before]; simplify_eq/=.
      * unfold truthy_id in Hid. rewrite Es, Et in Hid. done.
      * inversion Hall as [|? ? Hb]; subst. unfold truthy_id in Hb.
        by rewrite Es, Et in Hb.
Qed.

Lemma first_session_id_None ops :
  first_session_id ops = None ↔ Forall (λ op, truthy_id op = None) ops.
Proof.
  induction ops as [|op ops IH]; [done|].
  change (first_session_id (op :: ops))
    with (match op_session_id op with
          | Some s => if PyStr.truthy s then Some s
                      else first_session_id ops
          | None => first_session_id ops
          end).
  rewrite Forall_cons, <- IH. unfold truthy_id at 1.
  destruct (op_session_id op) as [s|]; [destruct (PyStr.truthy s)|].
  - split; [done|]. by intros [? _].
  - split; [by split|]. by intros [_ ?].
  - split; [by split|]. by intros [_ ?].
Qed.


Lemma omap_fst_sublist {A B} (f : A → option (A * B)) (l : list A) :
  (∀ x y, f x = Some y → fst y = x) → sublist (map fst (omap f l)) l.
Proof.
  intros Hf. induction l as [|x l IH]; [constructor|].
  cbn [omap list_omap]. destruct (f x) as [y|] eqn:Ef.
  - simpl. rewrite (Hf x y Ef). by constructor.
  - by constructor.
Qed.

(** The choice [get_sessions_to_process] makes for an id. *)
Definition old_session (operations : list operation) (dir : string)
    (w : World) (sid : string) : option (string * string) :=
  if bool_decide (Some sid = get_current_session_id operations) then None
  else if bool_decide (is_Some (files w !! transcript_of dir sid))
       then Some (sid, transcript_of dir sid) else None.

Lemma get_sessions_to_process_returns operations project_dir w :
  get_sessions_to_process operations project_dir w
  = Returns
      (match project_dir with
       | Some dir =>
           omap (old_session operations dir w)
                (get_all_session_ids_from_operations operations)
       | None => []
       end) w.
Proof. by destruct project_dir. Qed.

Lemma old_session_Some operations dir w sid y :
  old_session operations dir w sid = Some y ↔
  y = (sid, transcript_of dir sid)
  ∧ Some sid ≠ get_current_session_id operations
  ∧ is_Some (files w !! transcript_of dir sid).
Proof.
  unfold old_session.
  destruct (bool_decide_reflect
              (Some sid = get_current_session_id operations)) as [Hc|Hc].
  - split; [done|]. by intros (_ & ? & _).
  - destruct (bool_decide_reflect
                (is_Some (files w !! transcript_of dir sid))) as [He|He].
    + split; [by intros [= <-]|]. by intros (-> & _).
    + split; [done|]. by intros (_ & _ & ?).
Qed.


(** The choice [get_session_transcripts_from_operations] makes. *)
Definition with_transcript (dir : string) (w : World) (sid : string)
    : option (string * string) :=
  if bool_decide (is_Some (files w !! transcript_of dir sid))
  then Some (sid, transcript_of dir sid) else None.


Lemma omap_id_Some {A} (l : list A) : omap id (map Some l) = l.
Proof.
  induction l as [|x l IH]; [done|].
  change (omap id (map Some (x :: l))) with (x :: omap id (map Some l)).
  by rewrite IH.
Qed.

Lemma filter_length_eq {A} (f : A → bool) (l : list A) :
  length (List.filter f l) = length l → List.filter f l = l.
Proof.
  induction l as [|x l IH]; [done|]. simpl.
  pose proof (filter_length_le f l).
  destruct (f x); simpl; intros Hlen; [|lia].
  f_equal. apply IH. lia.
Qed.

Lemma filter_rev {A} (f : A → bool) (l : list A) :
  List.filter f (rev l) = rev (List.filter f l).
Proof.
  induction l as [|x l IH]; [done|]. simpl.
  rewrite List.filter_app, IH. simpl.
  destruct (f x); simpl; [done|]. by rewrite app_nil_r.
Qed.

(** A filter that keeps the records of the first session id leaves that
    id the first. *)
Lemma first_session_id_filter (f : operation → bool) ops :
  (∀ op, op ∈ ops →
     truthy_id op = first_session_id ops → f op = true) →
  first_session_id (List.filter f ops) = first_session_id ops.
Proof.
  induction ops as [|op ops IH]; intros Hkeep; [done|].
  assert (Hstep : first_session_id (op :: ops)
                  = match truthy_id op with
                    | Some s => Some s
                    | None => first_session_id ops
                    end).
  { simpl. unfold truthy_id. destruct (op_session_id op) as [s|]; [|done].
    by destruct (PyStr.truthy s). }
  rewrite Hstep in *. simpl List.filter.
  destruct (truthy_id op) as [s|] eqn:Eid.
  - rewrite (Hkeep op) by (by left || done).
    change (first_session_id (op :: List.filter f ops))
      with (match op_session_id op with
            | Some s => if PyStr.truthy s then Some s
                        else first_session_id (List.filter f ops)
            | None => first_session_id (List.filter f ops)
            end).
    apply truthy_id_Some in Eid as [Hne Hs]. rewrite Hs.
    by destruct s.
  - assert (IH' : first_session_id (List.filter f ops)
                  = first_session_id ops).
    { apply IH. intros op' Hin Hid. apply Hkeep; [by right|done]. }
    destruct (f op); [|done].
    change (first_session_id (op :: List.filter f ops))
      with (match op_session_id op with
            | Some s => if PyStr.truthy s then Some s
                        else first_session_id (List.filter f ops)
            | None => first_session_id (List.filter f ops)
            end).
    unfold truthy_id in Eid. destruct (op_session_id op) as [s|]; [|done].
    by destruct (PyStr.truthy s).
Qed.

Section WithLib.
Context `{PyLib} `{Globals}.

(** What the log holds after a pruning whose rewrite goes through. *)
Lemma pruned_log (sids : list string) (w : World)
    (lines : list (option operation)) :
  operations_file w = Some lines →
  ∃ c w' lines',
    remove_processed_sessions sids false WriteOk w = Returns c w'
    ∧ operations_file w' = Some lines'
    ∧ omap id lines' = kept sids lines.
Proof.
  intros Hfile. unfold remove_processed_sessions.
  rewrite (bind_Returns get _ w w w eq_refl). rewrite Hfile.
  destruct (load_operations_returns w lines Hfile) as (fs & Hload).
  rewrite (bind_Returns _ _ _ _ _ Hload).
  set (L := omap id lines).
  change (List.filter _ L) with (kept sids lines).
  set (R := kept sids lines).
  set (w0 := set_files fs w).
  cbn [negb andb].
  destruct (Z.ltb_spec 0 (Z.of_nat (length L) - Z.of_nat (length R)))
    as [Hpos|Hle].
  - destruct (writes_logger_info "remove_processed_sessions"
                ("Removed "
                 +:+ str_of_Z (Z.of_nat (length L) - Z.of_nat (length R))
                 +:+ " records")
                (set_operations_file (Some (map Some R)) w0))
      as ([] & fs' & Hlog).
    eexists _, _, (map Some R). split.
    { unfold mbind, IO_bind, bind, modify. cbv beta iota.
      rewrite Hlog. reflexivity. }
    split; [done|]. apply omap_id_Some.
  - exists (mkCounts (Z.of_nat (length L))
              (Z.of_nat (length L) - Z.of_nat (length R))
              (Z.of_nat (length R))), w0, lines.
    split; [reflexivity|]. split; [done|].
    symmetry. apply filter_length_eq.
    pose proof (filter_length_le
                  (λ op, not_in_sids (op_session_id op) sids) L).
    fold L. unfold R, kept in Hle. fold L in Hle. lia.
Qed.


End WithLib.

End SessionFacts.

(* ===================================================================== *)
(** * Further facts: recording an operation *)
(* ===================================================================== *)

Module RecorderFacts.
Import Checkpoint Sessions CheckpointSessions Recorder IOFacts PruneFacts
  SessionFacts.

Section WithLib.
Context `{PyLib} `{Globals}.

Lemma get_current_session_id_snoc operations op :
  get_current_session_id (operations ++ [op])
  = match truthy_id op with
    | Some sid => Some sid
    | None => get_current_session_id operations
    end.
Proof.
  unfold get_current_session_id. rewrite rev_app_distr. simpl.
  unfold truthy_id. destruct (op_session_id op) as [sid|]; [|done].
  by destruct (PyStr.truthy sid).
Qed.


End WithLib.
End RecorderFacts.

(* ===================================================================== *)
(** * Further facts: the post-action branch of the hook *)
(* ===================================================================== *)

Module PostFacts.
Import FocusCore FocusHook Recorder FocusHookPost IOFacts StateFileFacts
  StrikeFacts ConstraintFacts.

Section WithLib.
Context `{PyLib} `{Globals}.

(** What a step leaves alone: the output, the collector and the
    operation log. *)
Definition same_output (w w' : World) : Prop :=
  stdout w' = stdout w
  ∧ pending_messages w' = pending_messages w
  ∧ current_hook_event w' = current_hook_event w
  ∧ operations_file w' = operations_file w.

Lemma check_and_update_strikes_output tool_name tool_input tool_response w :
  ∀ msg w',
    check_and_update_strikes tool_name tool_input tool_response w
    = Returns msg w' →
    same_output w w'.
Proof.
  intros msg w'. unfold check_and_update_strikes.
  destruct (detect_failure tool_response) as [is_failure snippet].
  destruct (load_failure_counts_returns w) as (fs & Hload).
  rewrite (bind_Returns _ _ _ _ _ Hload).
  destruct is_failure.
  - unfold save_failure_counts. io_unfold. by intros [= _ <-].
  - destruct (loaded_counts w !! _).
    + unfold save_failure_counts. io_unfold. by intros [= _ <-].
    + io_unfold. by intros [= _ <-].
Qed.

Lemma strike_message_truthy K n msg :
  strike_message K n = Some msg → PyStr.truthy msg = true.
Proof.
  unfold strike_message.
  destruct (n =? 1); [by intros [= <-]|].
  destruct (n =? 2); [by intros [= <-]|].
  destruct (MAX_STRIKES <=? n); [by intros [= <-]|done].
Qed.

(** The rest of a branch that prints and collects nothing and leaves the
    state files alone. *)
Definition quiet (m : IO unit) : Prop :=
  ∀ w, ∃ w', m w = Returns tt w'
             ∧ same_output w w'
             ∧ failure_count_file w' = failure_count_file w.


End WithLib.
End PostFacts.

(* ===================================================================== *)
(** * Further facts: merging configurations *)
(* ===================================================================== *)

Module ConfigFacts.
Import Config.

Lemma jget_jset_eq key v d : jget key (jset key v d) = Some v.
Proof.
  induction d as [|k v' rest IH]; simpl.
  - by rewrite String.eqb_refl.
  - destruct (String.eqb_spec k key) as [->|Hne]; simpl.
    + by rewrite String.eqb_refl.
    + by destruct (String.eqb_spec k key).
Qed.

Lemma jget_jset_ne key key' v d :
  key ≠ key' → jget key (jset key' v d) = jget key d.
Proof.
  intros Hne. induction d as [|k v' rest IH]; simpl.
  - by destruct (String.eqb_spec key' key) as [->|].
  - destruct (String.eqb_spec k key') as [->|Hk]; simpl.
    + by destruct (String.eqb_spec key' key) as [->|].
    + by rewrite IH.
Qed.

Lemma jget_None key d : key ∉ jkeys d → jget key d = None.
Proof.
  induction d as [|k v rest IH]; simpl; [done|].
  intros Hnot. destruct (String.eqb_spec k key) as [->|Hne].
  - destruct Hnot. by left.
  - apply IH. intros Hin. apply Hnot. by right.
Qed.

Lemma jkeys_jset key v d :
  jkeys (jset key v d)
  = if bool_decide (key ∈ jkeys d) then jkeys d else jkeys d ++ [key].
Proof.
  induction d as [|k v' rest IH]; simpl; [done|].
  destruct (String.eqb_spec k key) as [->|Hne]; simpl.
  - rewrite bool_decide_eq_true_2; [done|by left].
  - rewrite IH. destruct (bool_decide_reflect (key ∈ jkeys rest)) as [Hin|Hnot].
    + rewrite bool_decide_eq_true_2; [done|by right].
    + rewrite bool_decide_eq_false_2; [done|].
      intros [?|?]%elem_of_cons; congruence.
Qed.

Lemma deep_merge_keys override : ∀ base,
  jkeys base `prefix_of` jkeys (deep_merge base override).
Proof.
  induction override as [|key value rest IH]; intros base; [done|].
  cbn [deep_merge].
  set (result := match jget key base, value with
                 | Some (JDict mine), JDict theirs => _
                 | _, _ => _
                 end).
  etrans; [|apply IH].
  assert (∃ v, result = jset key v base) as [v ->].
  { unfold result. destruct (jget key base) as [[a|mine]|], value; eauto. }
  rewrite jkeys_jset. destruct (bool_decide _); [done|].
  by apply prefix_app_r.
Qed.


(** A default configuration and a project file that changes one entry of
    a nested dict and adds a key. *)
Definition default_config : jdict :=
  JCons "start" (JDict (JCons "threshold" (JAtom "5")
                          (JCons "max_strikes" (JAtom "3") JNil)))
    (JCons "logging" (JAtom "INFO") JNil).
Definition project_config : jdict :=
  JCons "start" (JDict (JCons "max_strikes" (JAtom "5") JNil))
    (JCons "constraints" (JDict JNil) JNil).


End ConfigFacts.

(* ===================================================================== *)
(** * Further examples: a checkpoint and a post-action run *)
(* ===================================================================== *)

Module SessionExamples.
Import Demo FocusCore FocusHook Checkpoint Sessions CheckpointSessions
  Recorder FocusHookPost.

(** Three records of the old session abc, then two of the current session
    xyz; the transcript of abc is in the project directory. *)
Definition checkpoint_log : list (option operation) :=
  [Some (Examples.op_of "abc"); Some (Examples.op_of "abc");
   Some (Examples.op_of "abc"); Some (Examples.op_of "xyz");
   Some (Examples.op_of "xyz")].
Definition checkpoint_world : World :=
  set_operations_file (Some checkpoint_log)
    (set_files {[ "/p/abc.jsonl" := Examples.demo_transcript;
                  "/p/xyz.jsonl" := Examples.demo_transcript ]}
       empty_world).


(** A failed write, reported by the host with its ids. *)
Definition failed_write : post_stdin :=
  mkPostStdin
    (mkHookStdin (Some "xyz") (Some "toolu_01") (Some "PostToolUse")
                 (Some "Write"))
    Examples.write_a (RespDict (Some "Error: disk full") None).


End SessionExamples.

(* ===================================================================== *)
(** * Further facts: a warning in the pre-action branch, end to end *)
(* ===================================================================== *)

Module WarnFacts.
Import FocusCore Constraints FocusHookMain IOFacts ConstraintFacts.

Section WithLib.
Context `{PyLib} `{Globals}.


End WithLib.

Import Demo.

(** [no_tabs] as a warning. *)
Definition warn_tabs_config : constraints_config :=
  mkConstraints (Some true)
    {[ "no_tabs" := mkRule (Some true) (Some "warn") None (Some [".py"])
                      None None None None None ]}.


End WarnFacts.
